(** * ZProbe: the probing core of the Smoothie V2 firmware

    A shallow embedding of [Firmware/src/modules/tools/zprobe/ZProbe.cpp].

    The module lives in two timing domains.  The sampler [read_probe] is a
    timer callback; the probing operations ([run_probe], [probe_XYZ], the
    move helpers, [handle_gcode]) run in the command domain and block on the
    motion queue.  Both share the three session fields [probing],
    [probe_detected] and [debounce].

    - The object's fields are the record [ZProbe].
    - Every call into a collaborator (Robot, Conveyor, actuators, dispatcher,
      output stream, strategies) is an [event] appended to a chronological
      log; what a collaborator answers comes from an environment [Env].
    - The command domain is a small state monad [M]; after every statement
      the sampler may fire any number of times ([tick]), as the environment
      schedules it.
    - A call through a null strategy pointer ends the run with
      [NullDereference]. *)

From Stdlib Require Import ZArith List Bool String Ascii Lia.
From Stdlib Require Import SpecFloat.
Import ListNotations.
Open Scope Z_scope.

(** ** Single-precision floats

    C's [float] is IEEE-754 binary32: precision 24, maximal exponent 128. *)
Module F32.

Definition prec : Z := 24.
Definition emax : Z := 128.

Definition float : Type := spec_float.

Definition of_int (z : Z) : float := binary_normalize prec emax z 0 false.

Definition zero : float := S754_zero false.
Definition neg (x : float) : float := SFopp x.
Definition abs (x : float) : float := SFabs x.
Definition mul (x y : float) : float := SFmul prec emax x y.
Definition div (x y : float) : float := SFdiv prec emax x y.
Definition sub (x y : float) : float := SFsub prec emax x y.
Definition ltb (x y : float) : bool := SFltb x y.
Definition gtb (x y : float) : bool := SFltb y x.
Definition eqb (x y : float) : bool := SFeqb x y.
Definition neb (x y : float) : bool := negb (SFeqb x y).

(** The literal [.0001F], rounded to binary32 (bit pattern 0x38D1B717). *)
Definition lit_0_0001 : float := S754_finite false 13743895 (-37).

(** Conversion to [uint16_t]: truncation toward zero.  C leaves the result
    undefined outside the target range and for infinities and NaN; the model
    wraps modulo 2^16 and answers 0 there. *)
Definition to_uint16 (x : float) : Z :=
  match x with
  | S754_finite s m e =>
      let v := if 0 <=? e then Z.pos m * 2 ^ e else Z.pos m / 2 ^ (- e) in
      (if s then - v else v) mod 65536
  | _ => 0
  end.

End F32.

Abbreviation float := F32.float.

(** ** Axes, strategies, G-code words *)

Definition X_AXIS : nat := 0.
Definition Y_AXIS : nat := 1.
Definition Z_AXIS : nat := 2.

(** The strategies [configure] knows how to build. *)
Inductive strategy : Type :=
| ThreePointStrategy
| DeltaGridStrategy
| DeltaCalibrationStrategy.

(** A parsed G-code word, seen through the accessors the module uses. *)
Record GCode : Type := {
  get_code : Z;
  get_subcode : Z;
  has_arg : ascii -> bool;
  get_arg : ascii -> float
}.

(** ** The object *)

Record ZProbe : Type := {
  probing : bool;
  probe_detected : bool;
  debounce : Z;
  debounce_ms : Z;
  invert_override : bool;
  reverse_z : bool;
  is_rdelta : bool;
  max_z : float;
  slow_feedrate : float;
  fast_feedrate : float;
  return_feedrate : float;
  probe_height : float;
  dwell_before_probing : float;
  leveling_strategy : option strategy;
  calibration_strategy : option strategy
}.

Definition set_probing (b : bool) (z : ZProbe) : ZProbe :=
  {| probing := b;
     probe_detected := probe_detected z;
     debounce := debounce z;
     debounce_ms := debounce_ms z;
     invert_override := invert_override z;
     reverse_z := reverse_z z;
     is_rdelta := is_rdelta z;
     max_z := max_z z;
     slow_feedrate := slow_feedrate z;
     fast_feedrate := fast_feedrate z;
     return_feedrate := return_feedrate z;
     probe_height := probe_height z;
     dwell_before_probing := dwell_before_probing z;
     leveling_strategy := leveling_strategy z;
     calibration_strategy := calibration_strategy z |}.

Definition set_probe_detected (b : bool) (z : ZProbe) : ZProbe :=
  {| probing := probing z;
     probe_detected := b;
     debounce := debounce z;
     debounce_ms := debounce_ms z;
     invert_override := invert_override z;
     reverse_z := reverse_z z;
     is_rdelta := is_rdelta z;
     max_z := max_z z;
     slow_feedrate := slow_feedrate z;
     fast_feedrate := fast_feedrate z;
     return_feedrate := return_feedrate z;
     probe_height := probe_height z;
     dwell_before_probing := dwell_before_probing z;
     leveling_strategy := leveling_strategy z;
     calibration_strategy := calibration_strategy z |}.

Definition set_debounce (d : Z) (z : ZProbe) : ZProbe :=
  {| probing := probing z;
     probe_detected := probe_detected z;
     debounce := d;
     debounce_ms := debounce_ms z;
     invert_override := invert_override z;
     reverse_z := reverse_z z;
     is_rdelta := is_rdelta z;
     max_z := max_z z;
     slow_feedrate := slow_feedrate z;
     fast_feedrate := fast_feedrate z;
     return_feedrate := return_feedrate z;
     probe_height := probe_height z;
     dwell_before_probing := dwell_before_probing z;
     leveling_strategy := leveling_strategy z;
     calibration_strategy := calibration_strategy z |}.

(** ** Calls into collaborators *)

(** The stream a dispatched command writes to: the caller's, or a local
    [OutputStream nullos] that discards. *)
Inductive stream : Type := Os | NullOs.

(** An argument of [printf]. *)
Inductive parg : Type :=
| PFloat (x : float)
| PInt (n : Z).

Inductive event : Type :=
| StopMoving (actuator : nat)
| DeltaMove (delta : list float) (rate : float) (naxis : Z)
| WaitForIdle
| SafeSleep (ms : float)
| SetLastProbePosition (x y z : float) (ok : Z)
| ResetPositionFromCurrentActuatorPosition
| PushState
| PopState
| SetAbsoluteMode (b : bool)
| SetNextCommandIsMCS (b : bool)
| SetDisableSegmentation (b : bool)
| Dispatch (os : stream) (cmd : ascii) (code : Z) (args : list (ascii * float))
| Printf (fmt : string) (args : list parg)
| BroadcastHalt (b : bool)
| HandleGCode (s : strategy).

(** ** The environment

    Everything the module reads from outside, indexed by a clock that advances
    with every statement of the command domain. *)

(** What one firing of the sampler sees. *)
Record TickInput : Type := {
  x_moving : bool;
  y_moving : bool;
  z_moving : bool;
  pin : bool
}.

Record Env : Type := {
  (** [Robot::actuators.size()] *)
  n_actuators : nat;
  (** width in bits of the unsigned type of [debounce] (declared in ZProbe.h) *)
  counter_bits : Z;
  (** [pin.get()] read by the command domain *)
  pin_get : nat -> bool;
  (** the sampler firings between two statements of the command domain *)
  sampler_ticks : nat -> list TickInput;
  (** [actuators[a]->get_current_position()] *)
  get_current_position : nat -> nat -> float;
  (** [Robot::get_axis_position(axis)] *)
  get_axis_position : nat -> nat -> float;
  (** [strategy->handleGCode(gcode, os)] *)
  strategy_handles : nat -> strategy -> bool;
  (** the value of an uninitialised local [float] *)
  indeterminate : float
}.

Record World : Type := {
  zp : ZProbe;
  log : list event;
  clock : nat
}.

Definition emit (e : event) (w : World) : World :=
  {| zp := zp w; log := log w ++ [e]; clock := clock w |}.

Definition update (f : ZProbe -> ZProbe) (w : World) : World :=
  {| zp := f (zp w); log := log w; clock := clock w |}.

(** ** The sampler: [ZProbe::read_probe] *)

Definition any_moving (i : TickInput) : bool :=
  x_moving i || y_moving i || z_moving i.

(** [for(auto &a : Robot::getInstance()->actuators) a->stop_moving();] *)
Definition stop_all (n : nat) (w : World) : World :=
  fold_left (fun w a => emit (StopMoving a) w) (seq 0 n) w.

(** [debounce++] on an unsigned counter of [counter_bits] bits. *)
Definition incr (bits : Z) (d : Z) : Z := (d + 1) mod 2 ^ bits.

Definition read_probe (env : Env) (i : TickInput) (w : World) : World :=
  if negb (probing (zp w)) || probe_detected (zp w) then w
  else if any_moving i then
    if pin i then
      if debounce (zp w) <? debounce_ms (zp w) then
        update (fun z => set_debounce (incr (counter_bits env) (debounce z)) z) w
      else
        let w1 := stop_all (n_actuators env) w in
        let w2 := update (set_probe_detected true) w1 in
        update (set_debounce 0) w2
    else
      update (set_debounce 0) w
  else w.

(** A run of consecutive sampler firings. *)
Definition run_ticks (env : Env) (l : list TickInput) (w : World) : World :=
  fold_left (fun w i => read_probe env i w) l w.

(** How many firings of a run switch [probe_detected] from false to true. *)
Fixpoint confirmations (env : Env) (l : list TickInput) (w : World) : nat :=
  match l with
  | [] => 0%nat
  | i :: l' =>
      let v := read_probe env i w in
      ((if negb (probe_detected (zp w)) && probe_detected (zp v)
        then 1 else 0)
       + confirmations env l' v)%nat
  end.

(** The scheduling point after a statement of the command domain: the sampler
    firings the environment schedules there run, and the clock advances. *)
Definition tick (env : Env) (w : World) : World :=
  let w' := run_ticks env (sampler_ticks env (clock w)) w in
  {| zp := zp w'; log := log w'; clock := S (clock w) |}.

(** ** The command domain *)

Inductive outcome (A : Type) : Type :=
| Done (a : A) (w : World)
| NullDereference (w : World).

Arguments Done {A} a w.
Arguments NullDereference {A} w.

Definition M (A : Type) : Type := Env -> World -> outcome A.

Definition ret {A : Type} (a : A) : M A := fun _ w => Done a w.

Definition bind {A B : Type} (m : M A) (k : A -> M B) : M B :=
  fun env w =>
    match m env w with
    | Done a w' => k a env w'
    | NullDereference w' => NullDereference w'
    end.

Notation "x <- c ;; k" := (bind c (fun x => k))
  (at level 61, c at next level, right associativity).
Notation "' pat <- c ;; k" := (bind c (fun x => match x with pat => k end))
  (at level 61, pat pattern, c at next level, right associativity).
Notation "c ;; k" := (bind c (fun _ => k))
  (at level 61, right associativity).

(** Reading a field of the object. *)
Definition load {A : Type} (f : ZProbe -> A) : M A :=
  fun _ w => Done (f (zp w)) w.

(** Assigning a field of the object: one statement. *)
Definition store (f : ZProbe -> ZProbe) : M unit :=
  fun env w => Done tt (tick env (update f w)).

(** A call into a collaborator that answers nothing: one statement. *)
Definition call (e : event) : M unit :=
  fun env w => Done tt (tick env (emit e w)).

(** A query of a collaborator, answered by the environment. *)
Definition ask {A : Type} (q : Env -> nat -> A) : M A :=
  fun env w => Done (q env (clock w)) (tick env w).

(** [strategy->handleGCode(gcode, os)] through a pointer that may be null. *)
Definition handleGCode (s : option strategy) : M bool :=
  fun env w =>
    match s with
    | None => NullDereference w
    | Some st =>
        Done (strategy_handles env (clock w) st)
             (tick env (emit (HandleGCode st) w))
    end.

Definition when (b : bool) (m : M unit) : M unit := if b then m else ret tt.

(** *** Moves under machine coordinates *)

Definition mm_per_min (feedrate : float) : float :=
  F32.mul feedrate (F32.of_int 60).

Definition move_xy (x y feedrate : float) (relative : bool) : M unit :=
  call PushState ;;
  call (SetAbsoluteMode (negb relative)) ;;
  call (SetNextCommandIsMCS true) ;;
  call (Dispatch NullOs "G" 0
          [("X"%char, x); ("Y"%char, y); ("F"%char, mm_per_min feedrate)]) ;;
  call WaitForIdle ;;
  call PopState.

Definition move_x (x feedrate : float) (relative : bool) : M unit :=
  call PushState ;;
  call (SetAbsoluteMode (negb relative)) ;;
  call (SetNextCommandIsMCS true) ;;
  call (Dispatch NullOs "G" 0 [("X"%char, x); ("F"%char, mm_per_min feedrate)]) ;;
  call PopState.

Definition move_y (y feedrate : float) (relative : bool) : M unit :=
  call PushState ;;
  call (SetAbsoluteMode (negb relative)) ;;
  call (SetNextCommandIsMCS true) ;;
  call (Dispatch NullOs "G" 0 [("Y"%char, y); ("F"%char, mm_per_min feedrate)]) ;;
  call WaitForIdle ;;
  call PopState.

Definition move_z (z feedrate : float) (relative : bool) : M unit :=
  call PushState ;;
  call (SetAbsoluteMode (negb relative)) ;;
  call (SetNextCommandIsMCS true) ;;
  call (Dispatch NullOs "G" 0 [("Z"%char, z); ("F"%char, mm_per_min feedrate)]) ;;
  call WaitForIdle ;;
  call PopState.

(** The probing feedrate in mm/sec: the command's F word, given in mm/min,
    or the configured slow feedrate. *)
Definition probe_rate (gcode : GCode) (z : ZProbe) : float :=
  if has_arg gcode "F" then F32.div (get_arg gcode "F") (F32.of_int 60)
  else slow_feedrate z.

(** *** [ZProbe::run_probe] *)

(** [max_dist < 0 ? this->max_z * 2 : max_dist] *)
Definition probe_distance (z : ZProbe) (max_dist : float) : float :=
  if F32.ltb max_dist F32.zero then F32.mul (max_z z) (F32.of_int 2)
  else max_dist.

(** [bool dir = (!reverse_z != reverse); delta[Z_AXIS] = dir ? -maxz : maxz;] *)
Definition probe_delta (z : ZProbe) (reverse : bool) (maxz : float)
  : list float :=
  let dir := xorb (negb (reverse_z z)) reverse in
  [F32.zero; F32.zero; if dir then F32.neg maxz else maxz].

(** [probing = true; probe_detected = false; debounce = 0;] *)
Definition run_probe_arm : M unit :=
  store (set_probing true) ;;
  store (set_probe_detected false) ;;
  store (set_debounce 0).

(** The [float& mm] parameter goes in as [mm] and comes out as the second
    component of the result. *)
Definition run_probe (mm feedrate max_dist : float) (reverse : bool)
  : M (bool * float) :=
  triggered <- ask pin_get ;;
  if triggered then ret (false, mm)
  else
    maxz <- load (fun z => probe_distance z max_dist) ;;
    run_probe_arm ;;
    z_start_pos <- ask (fun env k => get_current_position env k Z_AXIS) ;;
    dwell <- load dwell_before_probing ;;
    when (F32.gtb dwell F32.lit_0_0001)
         (call (SafeSleep (F32.mul dwell (F32.of_int 1000)))) ;;
    delta <- load (fun z => probe_delta z reverse maxz) ;;
    call (DeltaMove delta feedrate 3) ;;
    call WaitForIdle ;;
    pos <- ask (fun env k => get_current_position env k 2%nat) ;;
    let mm := F32.sub z_start_pos pos in
    detected <- load probe_detected ;;
    call (SetLastProbePosition F32.zero F32.zero mm (if detected then 1 else 0)) ;;
    store (set_probing false) ;;
    detected <- load probe_detected ;;
    when detected (call ResetPositionFromCurrentActuatorPosition) ;;
    detected <- load probe_detected ;;
    ret (detected, mm).

(** *** [ZProbe::run_probe_return] *)

(** The feedrate of the move back to the start. *)
Definition resolve_return_feedrate (z : ZProbe) : float :=
  if F32.neb (return_feedrate z) F32.zero then return_feedrate z
  else
    let fr := F32.mul (slow_feedrate z) (F32.of_int 2) in
    if F32.gtb fr (fast_feedrate z) then fast_feedrate z else fr.

Definition run_probe_return (mm feedrate max_dist : float) (reverse : bool)
  : M (bool * float) :=
  save_z_pos <- ask (fun env k => get_axis_position env k Z_AXIS) ;;
  ' (ok, mm) <- run_probe mm feedrate max_dist reverse ;;
  fr <- load resolve_return_feedrate ;;
  move_z save_z_pos fr false ;;
  ret (ok, mm).

(** *** [ZProbe::probe_XYZ] *)

(** [probing = true; probe_detected = false;] *)
Definition probe_XYZ_arm : M unit :=
  store (set_probing true) ;;
  store (set_probe_detected false).

Definition probe_XYZ (gcode : GCode) (axis : nat) : M unit :=
  probe_XYZ_arm ;;
  call (SetDisableSegmentation true) ;;
  rate <- load (probe_rate gcode) ;;
  match axis with
  | 0%nat => move_x (get_arg gcode "X") rate true
  | 1%nat => move_y (get_arg gcode "Y") rate true
  | 2%nat => move_z (get_arg gcode "Z") rate true
  | _ => ret tt
  end ;;
  store (set_probing false) ;;
  call (SetDisableSegmentation false) ;;
  call ResetPositionFromCurrentActuatorPosition ;;
  pos <- ask (fun env k => (get_axis_position env k X_AXIS,
                            get_axis_position env k Y_AXIS,
                            get_axis_position env k Z_AXIS)) ;;
  let '(px, py, pz) := pos in
  detected <- load probe_detected ;;
  let probeok := if detected then 1 else 0 in
  call (Printf "[PRB:%1.3f,%1.3f,%1.3f:%d]\n"
          [PFloat px; PFloat py; PFloat pz; PInt probeok]) ;;
  call (SetLastProbePosition px py pz probeok) ;;
  when ((probeok =? 0) && (get_subcode gcode =? 2))
       (call (Printf "ALARM: Probe fail\n" []) ;;
        call (BroadcastHalt true)).

(** *** [ZProbe::handle_gcode] *)

(** G29, G31 and G32: the strategy family. *)
Definition handle_strategy_gcode (gcode : GCode) : M bool :=
  leveling <- load leveling_strategy ;;
  calibration <- load calibration_strategy ;;
  if negb (has_arg gcode "P") then
    handled <- handleGCode leveling ;;
    if handled then ret true
    else
      handled <- handleGCode calibration ;;
      if handled then ret true
      else
        call (Printf "No strategy found to handle G%d\n"
                [PInt (get_code gcode)]) ;;
        ret false
  else
    let i := F32.to_uint16 (get_arg gcode "P") in
    if i =? 0 then
      handled <- handleGCode leveling ;;
      if handled then ret true
      else
        call (Printf "strategy #%d did not handle G%d\n"
                [PInt i; PInt (get_code gcode)]) ;;
        ret false
    else if i =? 1 then
      handled <- handleGCode calibration ;;
      if handled then ret true
      else
        call (Printf "strategy #%d did not handle G%d\n"
                [PInt i; PInt (get_code gcode)]) ;;
        ret false
    else
      call (Printf "Only P0 ad P1 supported\n" []) ;;
      ret false.

(** G30: the simple Z probe. *)
Definition handle_G30 (gcode : GCode) : M bool :=
  call WaitForIdle ;;
  rdelta <- load is_rdelta ;;
  let set_z := has_arg gcode "Z" && negb rdelta in
  let reverse := has_arg gcode "R" && F32.neb (get_arg gcode "R") F32.zero in
  rate <- load (probe_rate gcode) ;;
  mm <- (fun env w => Done (indeterminate env) w) ;;
  ' (probe_result, mm) <-
    (if set_z then run_probe mm rate (F32.of_int (-1)) reverse
     else run_probe_return mm rate (F32.of_int (-1)) reverse) ;;
  (if probe_result then
     call (Printf "Z:%1.4f\n" [PFloat mm]) ;;
     when set_z (call (Dispatch Os "G" 92 [("Z"%char, get_arg gcode "Z")]))
   else
     call (Printf "ZProbe not triggered\n" [])) ;;
  ret true.

(** G38.2 and G38.3: the straight probe. *)
Definition handle_G38 (gcode : GCode) : M bool :=
  if negb (get_subcode gcode =? 2) && negb (get_subcode gcode =? 3) then
    call (Printf "error:Only G38.2 and G38.3 are supported\n" []) ;;
    ret false
  else
    triggered <- ask pin_get ;;
    if triggered then
      call (Printf "error:ZProbe triggered before move, aborting command.\n" []) ;;
      ret true
    else
      call WaitForIdle ;;
      (if has_arg gcode "X" then probe_XYZ gcode X_AXIS
       else if has_arg gcode "Y" then probe_XYZ gcode Y_AXIS
       else if has_arg gcode "Z" then probe_XYZ gcode Z_AXIS
       else call (Printf "error:at least one of X Y or Z must be specified\n" [])) ;;
      ret true.

Definition handle_gcode (gcode : GCode) : M bool :=
  if (29 <=? get_code gcode) && (get_code gcode <=? 32) then
    triggered <- ask pin_get ;;
    if triggered then
      call (Printf "ZProbe triggered before move, aborting command.\n" []) ;;
      ret true
    else if get_code gcode =? 30 then handle_G30 gcode
    else handle_strategy_gcode gcode
  else if get_code gcode =? 38 then handle_G38 gcode
  else ret false.

(** ** Views of a run *)

Definition is_stop (e : event) : bool :=
  match e with
  | StopMoving _ => true
  | _ => false
  end.

(** The calls of the command domain: the log without the sampler's stops. *)
Definition commands (l : list event) : list event :=
  filter (fun e => negb (is_stop e)) l.

(** The object with its three session fields blanked: what the sampler and
    the arming statements never touch. *)
Definition config (z : ZProbe) : ZProbe :=
  set_probing false (set_probe_detected false (set_debounce 0 z)).

(** [post m env w Q]: run from [w], the program [m] returns, with a result
    and a final world that satisfy [Q]. *)
Definition post {A : Type} (m : M A) (env : Env) (w : World)
  (Q : A -> World -> Prop) : Prop :=
  exists a w', m env w = Done a w' /\ Q a w'.

(** The pre-probe dwell, when one is configured. *)
Definition dwell_calls (z : ZProbe) : list event :=
  if F32.gtb (dwell_before_probing z) F32.lit_0_0001
  then [SafeSleep (F32.mul (dwell_before_probing z) (F32.of_int 1000))]
  else [].

(** The calls of a [run_probe] that got past the pin check, in order: [mm] is
    the distance it measured, [flag] the trigger flag it recorded and [r] the
    boolean it returned. *)
Definition probe_calls (z : ZProbe) (feedrate max_dist : float)
  (reverse : bool) (mm : float) (flag : Z) (r : bool) : list event :=
  dwell_calls z
  ++ [DeltaMove (probe_delta z reverse (probe_distance z max_dist)) feedrate 3;
      WaitForIdle;
      SetLastProbePosition F32.zero F32.zero mm flag]
  ++ (if r then [ResetPositionFromCurrentActuatorPosition] else []).

(** The calls of a move helper, in order; [wait] tells whether it blocks on
    the motion queue before restoring the state. *)
Definition move_calls (relative : bool) (args : list (ascii * float))
  (wait : bool) : list event :=
  [PushState; SetAbsoluteMode (negb relative); SetNextCommandIsMCS true;
   Dispatch NullOs "G" 0 args]
  ++ (if wait then [WaitForIdle] else [])
  ++ [PopState].

(** The calls of the move [probe_XYZ] makes along [axis]. *)
Definition axis_move_calls (gcode : GCode) (z : ZProbe) (axis : nat)
  : list event :=
  let feed := ("F"%char, mm_per_min (probe_rate gcode z)) in
  match axis with
  | 0%nat => move_calls true [("X"%char, get_arg gcode "X"); feed] false
  | 1%nat => move_calls true [("Y"%char, get_arg gcode "Y"); feed] true
  | 2%nat => move_calls true [("Z"%char, get_arg gcode "Z"); feed] true
  | _ => []
  end.

(** The report that ends [probe_XYZ]: the position line, the record of the
    last probe position and, for a strict probe that found nothing, the
    alarm. *)
Definition report_calls (px py pz : float) (flag subcode : Z) : list event :=
  [Printf "[PRB:%1.3f,%1.3f,%1.3f:%d]\n"
     [PFloat px; PFloat py; PFloat pz; PInt flag];
   SetLastProbePosition px py pz flag]
  ++ (if (flag =? 0) && (subcode =? 2)
      then [Printf "ALARM: Probe fail\n" []; BroadcastHalt true]
      else []).

Definition is_reconciliation (e : event) : bool :=
  match e with
  | ResetPositionFromCurrentActuatorPosition => true
  | _ => false
  end.

(** How often a log asks the robot to reset its position from the actuators. *)
Definition reconciliations (l : list event) : nat :=
  List.length (filter is_reconciliation l).

Definition is_move (e : event) : bool :=
  match e with
  | DeltaMove _ _ _ => true
  | Dispatch _ _ _ _ => true
  | _ => false
  end.

(** The moves a log issues: delta moves and dispatched commands. *)
Definition moves (l : list event) : list event := filter is_move l.

Definition is_output (e : event) : bool :=
  match e with
  | Printf _ _ => true
  | BroadcastHalt _ => true
  | _ => false
  end.

(** What a log prints on the caller's stream, and the halts it broadcasts. *)
Definition outputs (l : list event) : list event := filter is_output l.

(** ** Concrete machines

    A three-actuator machine with a 16-bit debounce counter, a pin that reads
    [p] to the command domain and a sampler schedule [ticks]; positions read
    zero and no strategy handles anything. *)
Definition machine (p : bool) (ticks : nat -> list TickInput) : Env :=
  {| n_actuators := 3;
     counter_bits := 16;
     pin_get := fun _ => p;
     sampler_ticks := ticks;
     get_current_position := fun _ _ => F32.zero;
     get_axis_position := fun _ _ => F32.zero;
     strategy_handles := fun _ _ => false;
     indeterminate := F32.zero |}.

(** The object as [configure] leaves it for a configuration that sets
    [debounce_ms] to [t] and [max_z] to 100 and names no strategy. *)
Definition configured (t : Z) : ZProbe :=
  {| probing := false;
     probe_detected := false;
     debounce := 0;
     debounce_ms := t;
     invert_override := false;
     reverse_z := false;
     is_rdelta := false;
     max_z := F32.of_int 100;
     slow_feedrate := F32.of_int 5;
     fast_feedrate := F32.of_int 100;
     return_feedrate := F32.zero;
     probe_height := F32.of_int 5;
     dwell_before_probing := F32.zero;
     leveling_strategy := None;
     calibration_strategy := None |}.

Definition start (z : ZProbe) : World := {| zp := z; log := []; clock := 0 |}.

(** A sampler firing during a Z move, with the pin reading [p]. *)
Definition z_moving_tick (p : bool) : TickInput :=
  {| x_moving := false; y_moving := false; z_moving := true; pin := p |}.

(** A G-code word with code, subcode and the arguments of [args]. *)
Definition gcode_of (code subcode : Z) (args : list (ascii * float)) : GCode :=
  {| get_code := code;
     get_subcode := subcode;
     has_arg := fun c => existsb (fun p => Ascii.eqb (fst p) c) args;
     get_arg := fun c =>
       match find (fun p => Ascii.eqb (fst p) c) args with
       | Some p => snd p
       | None => F32.zero
       end |}.

(** The schedule of the stale-counter scenario, for [G30] followed by
    [G38.3 Z-10] from [start]: while the first command waits for its probing
    move (clock 9) the sampler reads the pin inactive, then active, on the
    last two samples of the move; while the second waits for its move
    (clock 29) the sampler sees one single active sample. *)
Definition stale_schedule (k : nat) : list TickInput :=
  if Nat.eqb k 9 then [z_moving_tick false; z_moving_tick true]
  else if Nat.eqb k 29 then [z_moving_tick true]
  else [].

(** [G30] *)
Definition G30 : GCode := gcode_of 30 0 [].

(** [G38.3 Z-10] *)
Definition G38_3_Z : GCode := gcode_of 38 3 [("Z"%char, F32.of_int (-10))].

(** [G29] *)
Definition G29 : GCode := gcode_of 29 0 [].

(** ** The remaining fields' assignments *)

Definition set_debounce_ms (v : Z) (z : ZProbe) : ZProbe :=
  {| probing := probing z;
     probe_detected := probe_detected z;
     debounce := debounce z;
     debounce_ms := v;
     invert_override := invert_override z;
     reverse_z := reverse_z z;
     is_rdelta := is_rdelta z;
     max_z := max_z z;
     slow_feedrate := slow_feedrate z;
     fast_feedrate := fast_feedrate z;
     return_feedrate := return_feedrate z;
     probe_height := probe_height z;
     dwell_before_probing := dwell_before_probing z;
     leveling_strategy := leveling_strategy z;
     calibration_strategy := calibration_strategy z |}.

Definition set_invert_override (v : bool) (z : ZProbe) : ZProbe :=
  {| probing := probing z;
     probe_detected := probe_detected z;
     debounce := debounce z;
     debounce_ms := debounce_ms z;
     invert_override := v;
     reverse_z := reverse_z z;
     is_rdelta := is_rdelta z;
     max_z := max_z z;
     slow_feedrate := slow_feedrate z;
     fast_feedrate := fast_feedrate z;
     return_feedrate := return_feedrate z;
     probe_height := probe_height z;
     dwell_before_probing := dwell_before_probing z;
     leveling_strategy := leveling_strategy z;
     calibration_strategy := calibration_strategy z |}.

Definition set_reverse_z (v : bool) (z : ZProbe) : ZProbe :=
  {| probing := probing z;
     probe_detected := probe_detected z;
     debounce := debounce z;
     debounce_ms := debounce_ms z;
     invert_override := invert_override z;
     reverse_z := v;
     is_rdelta := is_rdelta z;
     max_z := max_z z;
     slow_feedrate := slow_feedrate z;
     fast_feedrate := fast_feedrate z;
     return_feedrate := return_feedrate z;
     probe_height := probe_height z;
     dwell_before_probing := dwell_before_probing z;
     leveling_strategy := leveling_strategy z;
     calibration_strategy := calibration_strategy z |}.

Definition set_max_z (v : float) (z : ZProbe) : ZProbe :=
  {| probing := probing z;
     probe_detected := probe_detected z;
     debounce := debounce z;
     debounce_ms := debounce_ms z;
     invert_override := invert_override z;
     reverse_z := reverse_z z;
     is_rdelta := is_rdelta z;
     max_z := v;
     slow_feedrate := slow_feedrate z;
     fast_feedrate := fast_feedrate z;
     return_feedrate := return_feedrate z;
     probe_height := probe_height z;
     dwell_before_probing := dwell_before_probing z;
     leveling_strategy := leveling_strategy z;
     calibration_strategy := calibration_strategy z |}.

Definition set_slow_feedrate (v : float) (z : ZProbe) : ZProbe :=
  {| probing := probing z;
     probe_detected := probe_detected z;
     debounce := debounce z;
     debounce_ms := debounce_ms z;
     invert_override := invert_override z;
     reverse_z := reverse_z z;
     is_rdelta := is_rdelta z;
     max_z := max_z z;
     slow_feedrate := v;
     fast_feedrate := fast_feedrate z;
     return_feedrate := return_feedrate z;
     probe_height := probe_height z;
     dwell_before_probing := dwell_before_probing z;
     leveling_strategy := leveling_strategy z;
     calibration_strategy := calibration_strategy z |}.

Definition set_fast_feedrate (v : float) (z : ZProbe) : ZProbe :=
  {| probing := probing z;
     probe_detected := probe_detected z;
     debounce := debounce z;
     debounce_ms := debounce_ms z;
     invert_override := invert_override z;
     reverse_z := reverse_z z;
     is_rdelta := is_rdelta z;
     max_z := max_z z;
     slow_feedrate := slow_feedrate z;
     fast_feedrate := v;
     return_feedrate := return_feedrate z;
     probe_height := probe_height z;
     dwell_before_probing := dwell_before_probing z;
     leveling_strategy := leveling_strategy z;
     calibration_strategy := calibration_strategy z |}.

Definition set_return_feedrate (v : float) (z : ZProbe) : ZProbe :=
  {| probing := probing z;
     probe_detected := probe_detected z;
     debounce := debounce z;
     debounce_ms := debounce_ms z;
     invert_override := invert_override z;
     reverse_z := reverse_z z;
     is_rdelta := is_rdelta z;
     max_z := max_z z;
     slow_feedrate := slow_feedrate z;
     fast_feedrate := fast_feedrate z;
     return_feedrate := v;
     probe_height := probe_height z;
     dwell_before_probing := dwell_before_probing z;
     leveling_strategy := leveling_strategy z;
     calibration_strategy := calibration_strategy z |}.

Definition set_probe_height (v : float) (z : ZProbe) : ZProbe :=
  {| probing := probing z;
     probe_detected := probe_detected z;
     debounce := debounce z;
     debounce_ms := debounce_ms z;
     invert_override := invert_override z;
     reverse_z := reverse_z z;
     is_rdelta := is_rdelta z;
     max_z := max_z z;
     slow_feedrate := slow_feedrate z;
     fast_feedrate := fast_feedrate z;
     return_feedrate := return_feedrate z;
     probe_height := v;
     dwell_before_probing := dwell_before_probing z;
     leveling_strategy := leveling_strategy z;
     calibration_strategy := calibration_strategy z |}.

Definition set_dwell_before_probing (v : float) (z : ZProbe) : ZProbe :=
  {| probing := probing z;
     probe_detected := probe_detected z;
     debounce := debounce z;
     debounce_ms := debounce_ms z;
     invert_override := invert_override z;
     reverse_z := reverse_z z;
     is_rdelta := is_rdelta z;
     max_z := max_z z;
     slow_feedrate := slow_feedrate z;
     fast_feedrate := fast_feedrate z;
     return_feedrate := return_feedrate z;
     probe_height := probe_height z;
     dwell_before_probing := v;
     leveling_strategy := leveling_strategy z;
     calibration_strategy := calibration_strategy z |}.

Definition set_leveling_strategy (v : option strategy) (z : ZProbe) : ZProbe :=
  {| probing := probing z;
     probe_detected := probe_detected z;
     debounce := debounce z;
     debounce_ms := debounce_ms z;
     invert_override := invert_override z;
     reverse_z := reverse_z z;
     is_rdelta := is_rdelta z;
     max_z := max_z z;
     slow_feedrate := slow_feedrate z;
     fast_feedrate := fast_feedrate z;
     return_feedrate := return_feedrate z;
     probe_height := probe_height z;
     dwell_before_probing := dwell_before_probing z;
     leveling_strategy := v;
     calibration_strategy := calibration_strategy z |}.

Definition set_calibration_strategy (v : option strategy) (z : ZProbe) : ZProbe :=
  {| probing := probing z;
     probe_detected := probe_detected z;
     debounce := debounce z;
     debounce_ms := debounce_ms z;
     invert_override := invert_override z;
     reverse_z := reverse_z z;
     is_rdelta := is_rdelta z;
     max_z := max_z z;
     slow_feedrate := slow_feedrate z;
     fast_feedrate := fast_feedrate z;
     return_feedrate := return_feedrate z;
     probe_height := probe_height z;
     dwell_before_probing := dwell_before_probing z;
     leveling_strategy := leveling_strategy z;
     calibration_strategy := v |}.

(** ** [ZProbe::ZProbe]

    The constructor assigns two fields; the others hold whatever [raw] holds
    (the members' default initialisers, declared in ZProbe.h, included). *)
Definition construct (raw : ZProbe) : ZProbe :=
  set_invert_override false (set_probing false raw).

(** ** [ZProbe::handle_mcode] *)

(** What the handler calls: the caller's stream and the probe pin. *)
Inductive mcall : Type :=
| OsPrintf (fmt : string) (args : list parg)
| OsSetAppendNl (b : bool)
| PinSetInverting (b : bool).

(** [M670]: each word that is present assigns its field; [I] also asks the
    pin for the inversion [pin.is_inverting() != invert_override]. *)
Definition handle_M670 (gcode : GCode) (pin_inverting : bool) (z : ZProbe)
  : ZProbe * list mcall :=
  let z := if has_arg gcode "S" then set_slow_feedrate (get_arg gcode "S") z
           else z in
  let z := if has_arg gcode "K" then set_fast_feedrate (get_arg gcode "K") z
           else z in
  let z := if has_arg gcode "R" then set_return_feedrate (get_arg gcode "R") z
           else z in
  let z := if has_arg gcode "Z" then set_max_z (get_arg gcode "Z") z else z in
  let z := if has_arg gcode "H" then set_probe_height (get_arg gcode "H") z
           else z in
  let '(z, calls) :=
    if has_arg gcode "I" then
      let z := set_invert_override (F32.neb (get_arg gcode "I") F32.zero) z in
      (z, [PinSetInverting (xorb pin_inverting (invert_override z))])
    else (z, []) in
  let z := if has_arg gcode "D"
           then set_dwell_before_probing (get_arg gcode "D") z else z in
  (z, calls).

(** [pin_reads] is what [pin.get()] answers and [pin_inverting] what
    [pin.is_inverting()] answers; the result is the handler's return value,
    the object afterwards and its calls in order. *)
Definition handle_mcode (gcode : GCode) (pin_reads pin_inverting : bool)
  (z : ZProbe) : bool * ZProbe * list mcall :=
  if get_code gcode =? 119 then
    let c := if pin_reads then 1 else 0 in
    (true, z, [OsPrintf " Probe: %d" [PInt c]; OsSetAppendNl true])
  else if get_code gcode =? 670 then
    let '(z', calls) := handle_M670 gcode pin_inverting z in
    (true, z', calls)
  else if get_code gcode =? 500 then
    (true, z,
     [OsPrintf ";Probe feedrates Slow/fast(K)/Return (mm/sec) max_z (mm) height (mm) dwell (s):\nM670 S%1.2f K%1.2f R%1.2f Z%1.2f H%1.2f D%1.2f\n"
        [PFloat (slow_feedrate z); PFloat (fast_feedrate z);
         PFloat (return_feedrate z); PFloat (max_z z);
         PFloat (probe_height z); PFloat (dwell_before_probing z)]])
  else (false, z, []).

(** The inversion of the pin after the calls of a handler, [inv] being its
    inversion before: the pin keeps what it was last asked for. *)
Definition inversion_after (calls : list mcall) (inv : bool) : bool :=
  fold_left (fun b c => match c with PinSetInverting b' => b' | _ => b end)
    calls inv.

(** ** [ZProbe::configure] *)

(** The configuration reader, seen through the calls [configure] makes:
    whether the [zprobe] section exists, and the value each getter answers
    for a key and a default. *)
Record ConfigReader : Type := {
  get_section : bool;
  get_bool : string -> bool -> bool;
  get_float : string -> float -> float;
  get_string : string -> string -> string
}.

(** The other collaborators of [configure]: whether a pin built from a
    description is connected, and what a strategy's own [configure]
    answers. *)
Record Board : Type := {
  pin_connected : string -> bool;
  strategy_configure : strategy -> bool
}.

Inductive handler_kind : Type := GCODE_HANDLER | MCODE_HANDLER.

Inductive setup_call : Type :=
| StdPrintf (fmt : string) (args : list string)
| PinFromString (description : string)
| StrategyConfigure (s : strategy)
| AddHandler (kind : handler_kind) (code : Z)
| AttachSampler (hz : Z).

(** Conversion of a float to the unsigned type of the debounce fields, of
    [bits] bits: truncation toward zero.  C leaves the result undefined
    outside the target range and for infinities and NaN; the model wraps
    modulo [2 ^ bits] and answers 0 there. *)
Definition to_unsigned (bits : Z) (x : float) : Z :=
  match x with
  | S754_finite s m e =>
      let v := if 0 <=? e then Z.pos m * 2 ^ e else Z.pos m / 2 ^ (- e) in
      (if s then - v else v) mod 2 ^ bits
  | _ => 0
  end.

(** The report on a strategy's own [configure]. *)
Definition strategy_report (board : Board) (s : option strategy)
  (leveling : string) : list setup_call :=
  match s with
  | None => []
  | Some st =>
      [StrategyConfigure st;
       if strategy_configure board st
       then StdPrintf "config-zprobe: loaded %s strategy\n" [leveling]
       else StdPrintf "ERROR: config-zprobe: failed to load %s strategy\n"
              [leveling]]
  end.

(** The part of [configure] that picks the strategies. *)
Definition configure_strategies (cr : ConfigReader) (board : Board)
  (z : ZProbe) : ZProbe * list setup_call :=
  let leveling := get_string cr "leveling" EmptyString in
  let '(z, calls1) :=
    if negb (String.eqb leveling EmptyString) then
      let '(z, calls) :=
        if String.eqb leveling "three point"
        then (set_leveling_strategy (Some ThreePointStrategy) z, [])
        else if String.eqb leveling "delta grid"
        then (set_leveling_strategy (Some DeltaGridStrategy) z, [])
        else (z, [StdPrintf
                    "ERROR: config-zprobe: Unknown leveling stratagy: %s"
                    [leveling]]) in
      (z, calls ++ strategy_report board (leveling_strategy z) leveling)
    else (z, []) in
  let calibration := get_string cr "calibration" EmptyString in
  let '(z, calls2) :=
    if negb (String.eqb calibration EmptyString) then
      let '(z, calls) :=
        if String.eqb calibration "delta"
        then (set_calibration_strategy (Some DeltaCalibrationStrategy) z, [])
        else (z, [StdPrintf
                    "ERROR: config-zprobe: Unknown calibration stratagy: %s"
                    [calibration]]) in
      (z, calls ++ strategy_report board (calibration_strategy z) leveling)
    else (z, []) in
  (z, calls1 ++ calls2).

(** The handlers and the timer [configure] registers. *)
Definition registrations : list setup_call :=
  [AddHandler GCODE_HANDLER 29; AddHandler GCODE_HANDLER 30;
   AddHandler GCODE_HANDLER 31; AddHandler GCODE_HANDLER 32;
   AddHandler GCODE_HANDLER 38;
   AddHandler MCODE_HANDLER 119; AddHandler MCODE_HANDLER 670;
   AddHandler MCODE_HANDLER 500;
   AttachSampler 100].

(** The result is the return value, the object afterwards and the calls made,
    in order; [bits] is the width of the debounce fields. *)
Definition configure (cr : ConfigReader) (board : Board) (bits : Z)
  (z : ZProbe) : bool * ZProbe * list setup_call :=
  if negb (get_section cr) then
    (false, z, [StdPrintf "configure-zprobe: no zprobe section found\n" []])
  else if negb (get_bool cr "enable" false) then (false, z, [])
  else
    let description := get_string cr "probe_pin" "nc" in
    if negb (pin_connected board description) then
      (false, z,
       [PinFromString description;
        StdPrintf "ERROR: config-zprobe: no pin defined\n" []])
    else
      let z := set_debounce_ms
                 (to_unsigned bits (get_float cr "debounce_ms" F32.zero)) z in
      let '(z, calls) := configure_strategies cr board z in
      let z := set_probe_height (get_float cr "probe_height" (F32.of_int 5)) z in
      let z := set_slow_feedrate (get_float cr "slow_feedrate" (F32.of_int 5)) z in
      let z := set_fast_feedrate
                 (get_float cr "fast_feedrate" (F32.of_int 100)) z in
      let z := set_return_feedrate
                 (get_float cr "return_feedrate" F32.zero) z in
      let z := set_reverse_z (get_bool cr "reverse_z" false) z in
      let z := set_max_z (get_float cr "max_z" F32.zero) z in
      let z := set_dwell_before_probing
                 (get_float cr "dwell_before_probing" F32.zero) z in
      (true, z, PinFromString description :: calls ++ registrations).


(** The strategies whose own [configure] is called, in order. *)
Definition strategies_configured (calls : list setup_call) : list strategy :=
  flat_map (fun c => match c with
                     | StrategyConfigure st => [st]
                     | _ => []
                     end) calls.

(** A strategy pointer as the list of what it points to. *)
Definition present (s : option strategy) : list strategy :=
  match s with
  | Some st => [st]
  | None => []
  end.

(** A configuration that enables the module on pin [p1.2], names the
    [delta grid] leveling strategy and leaves every other key to its
    default. *)
Definition named_delta_grid : ConfigReader :=
  {| get_section := true;
     get_bool := fun k d => if String.eqb k "enable" then true else d;
     get_float := fun _ d => d;
     get_string := fun k d =>
       if String.eqb k "leveling" then "delta grid"%string
       else if String.eqb k "probe_pin" then "p1.2"%string
       else d |}.

(** A board on which every pin but [nc] is connected and every strategy
    configures. *)
Definition any_pin_but_nc : Board :=
  {| pin_connected := fun s => negb (String.eqb s "nc");
     strategy_configure := fun _ => true |}.

(** A schedule with one firing, while the command domain is at clock 5: an
    active sample taken during a Z move. *)
Definition one_active_sample (k : nat) : list TickInput :=
  if Nat.eqb k 5 then [z_moving_tick true] else [].

(** ** The sampler seen from the command domain *)

(** The object after a run of sampler firings that finds the object [z]. *)
Definition sampled (env : Env) (l : list TickInput) (z : ZProbe) : ZProbe :=
  zp (run_ticks env l (start z)).

(** The firings at the [n] scheduling points from clock [k] on, in order. *)
Definition firings (env : Env) (k n : nat) : list TickInput :=
  flat_map (sampler_ticks env) (seq k n).

(** The integer a float converts to in C: its value with the fraction
    discarded (0 for what is not a finite number). *)
Definition truncate (x : float) : Z :=
  match x with
  | S754_finite s m e =>
      let v := if 0 <=? e then Z.pos m * 2 ^ e else Z.pos m / 2 ^ (- e) in
      if s then - v else v
  | _ => 0
  end.

(** Whether C defines the conversion of [x] to [uint16_t]: [x] is a finite
    number and [truncate x] lies between 0 and 65535. *)
Definition uint16_defined (x : float) : bool :=
  match x with
  | S754_zero _ | S754_finite _ _ _ =>
      (0 <=? truncate x) && (truncate x <? 65536)
  | _ => false
  end.

(** ** Views of the robot's state in a log *)

(** The depth of the robot's saved-state stack after a log, the depth before
    it being [d]: a pop of an empty stack is left out of the count. *)
Definition state_depth (l : list event) (d : nat) : nat :=
  fold_left (fun d e => match e with
                        | PushState => S d
                        | PopState => Nat.pred d
                        | _ => d
                        end) l d.

(** Whether segmentation is disabled after a log, [b] saying whether it was
    before. *)
Definition segmentation_disabled (l : list event) (b : bool) : bool :=
  fold_left (fun b e => match e with
                        | SetDisableSegmentation b' => b'
                        | _ => b
                        end) l b.

Definition is_os_dispatch (e : event) : bool :=
  match e with
  | Dispatch Os _ _ _ => true
  | _ => false
  end.

(** The commands a log dispatches on the caller's stream. *)
Definition os_dispatches (l : list event) : list event :=
  filter is_os_dispatch l.

(** * Properties *)

(** ** Floats *)

Lemma neg_involutive (x : float) : F32.neg (F32.neg x) = x.
Proof.
  destruct x; cbn; try rewrite negb_involutive; reflexivity.
Qed.

Lemma abs_neg (x : float) : F32.abs (F32.neg x) = F32.abs x.
Proof.
  destruct x; reflexivity.
Qed.

Lemma compare_cont_refl (m : positive) (c : comparison) :
  Pos.compare_cont c m m = c.
Proof.
  revert c; induction m; intro c; cbn; auto.
Qed.

Lemma gtb_irrefl (x : float) : F32.gtb x x = false.
Proof.
  unfold F32.gtb, SFltb.
  destruct x as [s|s| |s m e]; cbn; try (destruct s; reflexivity); try reflexivity.
  rewrite Z.compare_refl.
  fold (Pos.compare_cont Eq m m).
  rewrite compare_cont_refl.
  destruct s; reflexivity.
Qed.

(** ** The sampler *)

Lemma stop_list_log (l : list nat) (w : World) :
  log (fold_left (fun w a => emit (StopMoving a) w) l w)
  = log w ++ map StopMoving l.
Proof.
  revert w; induction l as [|a l IH]; intro w; cbn.
  - now rewrite app_nil_r.
  - rewrite IH; cbn. now rewrite <- app_assoc.
Qed.

Lemma stop_list_zp (l : list nat) (w : World) :
  zp (fold_left (fun w a => emit (StopMoving a) w) l w) = zp w.
Proof.
  revert w; induction l as [|a l IH]; intro w; cbn; [reflexivity|].
  now rewrite IH.
Qed.

Lemma stop_all_log (n : nat) (w : World) :
  log (stop_all n w) = log w ++ map StopMoving (seq 0 n).
Proof. apply stop_list_log. Qed.

Lemma stop_all_zp (n : nat) (w : World) : zp (stop_all n w) = zp w.
Proof. apply stop_list_zp. Qed.

Lemma commands_app (l1 l2 : list event) :
  commands (l1 ++ l2) = commands l1 ++ commands l2.
Proof. apply filter_app. Qed.

Lemma commands_stops (l : list nat) : commands (map StopMoving l) = [].
Proof.
  induction l as [|a l IH]; cbn; auto.
Qed.

(** A firing of the sampler that is disarmed, already detected, or finds no
    primary axis moving does nothing at all. *)
Lemma read_probe_idle (env : Env) (i : TickInput) (w : World) :
  probing (zp w) = false \/ probe_detected (zp w) = true \/ any_moving i = false ->
  read_probe env i w = w.
Proof.
  unfold read_probe.
  intros [H | [H | H]]; rewrite H; cbn; try reflexivity.
  - now rewrite orb_true_r.
  - now destruct (negb (probing (zp w)) || probe_detected (zp w)).
Qed.

Lemma read_probe_probing (env : Env) (i : TickInput) (w : World) :
  probing (zp (read_probe env i w)) = probing (zp w).
Proof.
  unfold read_probe.
  destruct (negb (probing (zp w)) || probe_detected (zp w)); [reflexivity|].
  destruct (any_moving i); [|reflexivity].
  destruct (pin i); [|reflexivity].
  destruct (debounce (zp w) <? debounce_ms (zp w)); cbn; [reflexivity|].
  now rewrite stop_all_zp.
Qed.

Lemma read_probe_config (env : Env) (i : TickInput) (w : World) :
  config (zp (read_probe env i w)) = config (zp w).
Proof.
  unfold read_probe.
  destruct (negb (probing (zp w)) || probe_detected (zp w)); [reflexivity|].
  destruct (any_moving i); [|reflexivity].
  destruct (pin i); [|reflexivity].
  destruct (debounce (zp w) <? debounce_ms (zp w)); cbn; [reflexivity|].
  now rewrite stop_all_zp.
Qed.

(** The sampler only ever adds stop commands to the log. *)
Lemma read_probe_log (env : Env) (i : TickInput) (w : World) :
  exists stops : list nat,
    log (read_probe env i w) = log w ++ map StopMoving stops.
Proof.
  unfold read_probe.
  destruct (negb (probing (zp w)) || probe_detected (zp w));
    [exists []; now rewrite app_nil_r|].
  destruct (any_moving i); [|exists []; now rewrite app_nil_r].
  destruct (pin i); [|exists []; now rewrite app_nil_r].
  destruct (debounce (zp w) <? debounce_ms (zp w)); cbn;
    [exists []; now rewrite app_nil_r|].
  exists (seq 0 (n_actuators env)). apply stop_all_log.
Qed.

Lemma read_probe_commands (env : Env) (i : TickInput) (w : World) :
  commands (log (read_probe env i w)) = commands (log w).
Proof.
  destruct (read_probe_log env i w) as [stops ->].
  now rewrite commands_app, commands_stops, app_nil_r.
Qed.

Lemma run_ticks_idle (env : Env) (l : list TickInput) (w : World) :
  probing (zp w) = false \/ probe_detected (zp w) = true ->
  run_ticks env l w = w.
Proof.
  unfold run_ticks.
  induction l as [|i l IH]; intro H; cbn; [reflexivity|].
  rewrite read_probe_idle by tauto. auto.
Qed.

Lemma run_ticks_probing (env : Env) (l : list TickInput) (w : World) :
  probing (zp (run_ticks env l w)) = probing (zp w).
Proof.
  unfold run_ticks.
  revert w; induction l as [|i l IH]; intro w; cbn; [reflexivity|].
  now rewrite IH, read_probe_probing.
Qed.

Lemma run_ticks_config (env : Env) (l : list TickInput) (w : World) :
  config (zp (run_ticks env l w)) = config (zp w).
Proof.
  unfold run_ticks.
  revert w; induction l as [|i l IH]; intro w; cbn; [reflexivity|].
  now rewrite IH, read_probe_config.
Qed.

Lemma run_ticks_commands (env : Env) (l : list TickInput) (w : World) :
  commands (log (run_ticks env l w)) = commands (log w).
Proof.
  unfold run_ticks.
  revert w; induction l as [|i l IH]; intro w; cbn; [reflexivity|].
  now rewrite IH, read_probe_commands.
Qed.

Lemma run_ticks_no_motion (env : Env) (l : list TickInput) (w : World) :
  Forall (fun i => any_moving i = false) l ->
  run_ticks env l w = w.
Proof.
  unfold run_ticks.
  induction 1 as [|i l Hi Hl IH]; cbn; [reflexivity|].
  rewrite read_probe_idle by tauto. exact IH.
Qed.

(** ** Scheduling points *)

Lemma tick_clock (env : Env) (w : World) : clock (tick env w) = S (clock w).
Proof. reflexivity. Qed.

Lemma tick_probing (env : Env) (w : World) :
  probing (zp (tick env w)) = probing (zp w).
Proof. apply run_ticks_probing. Qed.

Lemma tick_config (env : Env) (w : World) :
  config (zp (tick env w)) = config (zp w).
Proof. apply run_ticks_config. Qed.

Lemma tick_commands (env : Env) (w : World) :
  commands (log (tick env w)) = commands (log w).
Proof. apply run_ticks_commands. Qed.

(** While the session is disarmed the sampler leaves object and log alone. *)
Lemma tick_disarmed_zp (env : Env) (w : World) :
  probing (zp w) = false -> zp (tick env w) = zp w.
Proof.
  intro H. unfold tick; cbn. now rewrite run_ticks_idle by tauto.
Qed.

Lemma tick_disarmed_log (env : Env) (w : World) :
  probing (zp w) = false -> log (tick env w) = log w.
Proof.
  intro H. unfold tick; cbn. now rewrite run_ticks_idle by tauto.
Qed.

Lemma commands_snoc (l : list event) (e : event) :
  is_stop e = false -> commands (l ++ [e]) = commands l ++ [e].
Proof.
  intro H. rewrite commands_app. cbn. now rewrite H.
Qed.

(** ** Symbolic execution of the command domain *)

Lemma zp_emit (e : event) (w : World) : zp (emit e w) = zp w.
Proof. reflexivity. Qed.

Lemma log_emit (e : event) (w : World) : log (emit e w) = log w ++ [e].
Proof. reflexivity. Qed.

Lemma clock_emit (e : event) (w : World) : clock (emit e w) = clock w.
Proof. reflexivity. Qed.

Lemma zp_update (f : ZProbe -> ZProbe) (w : World) : zp (update f w) = f (zp w).
Proof. reflexivity. Qed.

Lemma log_update (f : ZProbe -> ZProbe) (w : World) : log (update f w) = log w.
Proof. reflexivity. Qed.

Lemma clock_update (f : ZProbe -> ZProbe) (w : World) :
  clock (update f w) = clock w.
Proof. reflexivity. Qed.

Lemma config_set_probing (b : bool) (z : ZProbe) :
  config (set_probing b z) = config z.
Proof. reflexivity. Qed.

Lemma config_set_probe_detected (b : bool) (z : ZProbe) :
  config (set_probe_detected b z) = config z.
Proof. reflexivity. Qed.

Lemma config_set_debounce (d : Z) (z : ZProbe) :
  config (set_debounce d z) = config z.
Proof. reflexivity. Qed.

Lemma probe_distance_config (z : ZProbe) (d : float) :
  probe_distance z d = probe_distance (config z) d.
Proof. reflexivity. Qed.

Lemma probe_delta_config (z : ZProbe) (r : bool) (m : float) :
  probe_delta z r m = probe_delta (config z) r m.
Proof. reflexivity. Qed.

Lemma resolve_return_feedrate_config (z : ZProbe) :
  resolve_return_feedrate z = resolve_return_feedrate (config z).
Proof. reflexivity. Qed.

Arguments tick : simpl never.
Arguments emit : simpl never.
Arguments update : simpl never.
Arguments config : simpl never.
Arguments commands : simpl never.

Create Rewrite HintDb world.

#[local] Hint Rewrite
  zp_emit log_emit clock_emit zp_update log_update clock_update
  tick_clock tick_probing tick_config tick_commands
  config_set_probing config_set_probe_detected config_set_debounce
  : world.

Lemma post_ret {A : Type} (a : A) env w (Q : A -> World -> Prop) :
  Q a w -> post (ret a) env w Q.
Proof. intro H. exists a, w. split; [reflexivity | exact H]. Qed.

Lemma post_bind {A B : Type} (m : M A) (k : A -> M B) env w
  (Q : B -> World -> Prop) :
  post m env w (fun a w' => post (k a) env w' Q) ->
  post (bind m k) env w Q.
Proof.
  intros (a & w' & Hm & b & w'' & Hk & HQ).
  exists b, w''. split; [|exact HQ].
  unfold bind. now rewrite Hm.
Qed.

Lemma post_load {A : Type} (f : ZProbe -> A) env w (Q : A -> World -> Prop) :
  Q (f (zp w)) w -> post (load f) env w Q.
Proof. intro H. exists (f (zp w)), w. split; [reflexivity | exact H]. Qed.

Lemma post_store (f : ZProbe -> ZProbe) env w (Q : unit -> World -> Prop) :
  (forall w', w' = tick env (update f w) -> Q tt w') ->
  post (store f) env w Q.
Proof. intro H. exists tt, (tick env (update f w)). split; auto. Qed.

Lemma post_call (e : event) env w (Q : unit -> World -> Prop) :
  (forall w', w' = tick env (emit e w) -> Q tt w') ->
  post (call e) env w Q.
Proof. intro H. exists tt, (tick env (emit e w)). split; auto. Qed.

Lemma post_ask {A : Type} (q : Env -> nat -> A) env w
  (Q : A -> World -> Prop) :
  (forall w', w' = tick env w -> Q (q env (clock w)) w') ->
  post (ask q) env w Q.
Proof. intro H. exists (q env (clock w)), (tick env w). split; auto. Qed.

Lemma post_when (b : bool) (m : M unit) env w (Q : unit -> World -> Prop) :
  (b = true -> post m env w Q) ->
  (b = false -> Q tt w) ->
  post (when b m) env w Q.
Proof.
  destruct b; cbn; intros H1 H2; [now apply H1|].
  apply post_ret. now apply H2.
Qed.

Lemma post_handleGCode (st : strategy) env w (Q : bool -> World -> Prop) :
  (forall w', w' = tick env (emit (HandleGCode st) w) ->
              Q (strategy_handles env (clock w) st) w') ->
  post (handleGCode (Some st)) env w Q.
Proof.
  intro H. eexists _, _. split; [reflexivity|]. now apply H.
Qed.

Lemma post_consequence {A : Type} (m : M A) env w (Q Q' : A -> World -> Prop) :
  post m env w Q -> (forall a w', Q a w' -> Q' a w') -> post m env w Q'.
Proof.
  intros (a & w' & Hm & HQ) H. exists a, w'. auto.
Qed.

Lemma tick_emit_disarmed (env : Env) (e : event) (w : World) :
  probing (zp w) = false -> zp (tick env (emit e w)) = zp w.
Proof.
  intro H. now rewrite tick_disarmed_zp, zp_emit by (now rewrite zp_emit).
Qed.

(** What a scheduling point leaves of a world, read off its defining
    equation [H : w' = tick env ...] and brought back to the first world. *)
Ltac facts H :=
  let Hl := fresh "Hl" in
  let Hc := fresh "Hc" in
  let Hp := fresh "Hp" in
  let Hk := fresh "Hk" in
  pose proof (f_equal (fun x => commands (log x)) H) as Hl;
  pose proof (f_equal (fun x => config (zp x)) H) as Hc;
  pose proof (f_equal (fun x => probing (zp x)) H) as Hp;
  pose proof (f_equal clock H) as Hk;
  cbn beta in Hl, Hc, Hp, Hk;
  autorewrite with world in Hl, Hc, Hp, Hk;
  rewrite ?commands_snoc in Hl by reflexivity;
  cbn [probing set_probing set_probe_detected set_debounce] in Hp;
  repeat match goal with
         | Hprev : commands (log ?y) = _ |- _ =>
             tryif constr_eq Hprev Hl then fail else rewrite Hprev in Hl
         | Hprev : config (zp ?y) = _ |- _ =>
             tryif constr_eq Hprev Hc then fail else rewrite Hprev in Hc
         | Hprev : probing (zp ?y) = _ |- _ =>
             tryif constr_eq Hprev Hp then fail else rewrite Hprev in Hp
         | Hprev : clock ?y = _ |- _ =>
             tryif constr_eq Hprev Hk then fail else rewrite Hprev in Hk
         end;
  try match type of H with
      | ?x = tick _ (emit _ ?y) =>
          match goal with
          | Hd : probing (zp y) = false |- _ =>
              let Hz := fresh "Hz" in
              assert (Hz : zp x = zp y)
                by (rewrite H; apply tick_emit_disarmed; exact Hd)
          end
      | ?x = tick _ ?y =>
          match goal with
          | Hd : probing (zp y) = false |- _ =>
              let Hz := fresh "Hz" in
              assert (Hz : zp x = zp y)
                by (rewrite H; apply tick_disarmed_zp; exact Hd)
          end
      end.

(** One statement of the program under [post]. *)
Ltac step :=
  cbn beta;
  lazymatch goal with
  | |- post (bind _ _) _ _ _ => apply post_bind; step
  | |- post (call _) _ _ _ =>
      let w' := fresh "w" in let H := fresh "Hw" in
      apply post_call; intros w' H; facts H
  | |- post (store _) _ _ _ =>
      let w' := fresh "w" in let H := fresh "Hw" in
      apply post_store; intros w' H; facts H
  | |- post (ask _) _ _ _ =>
      let w' := fresh "w" in let H := fresh "Hw" in
      apply post_ask; intros w' H; facts H
  | |- post (when _ _) _ _ _ =>
      let E := fresh "Ewhen" in
      apply post_when; intro E; try discriminate E;
      try lazymatch type of E with ?b = ?b => clear E end
  | |- post (load _) _ _ _ => apply post_load
  | |- post (ret _) _ _ _ => apply post_ret
  end;
  cbn beta.

(** Rewrites the goal's views of later worlds back to the first one. *)
Ltac unwind :=
  repeat match goal with
         | H : commands (log ?x) = _ |- context [commands (log ?x)] => rewrite H
         | H : config (zp ?x) = _ |- context [config (zp ?x)] => rewrite H
         | H : probing (zp ?x) = _ |- context [probing (zp ?x)] => rewrite H
         | H : clock ?x = _ |- context [clock ?x] => rewrite H
         | H : zp ?x = zp _ |- context [zp ?x] => rewrite H
         end.

Lemma dwell_config (z : ZProbe) :
  dwell_before_probing z = dwell_before_probing (config z).
Proof. reflexivity. Qed.

Lemma probe_rate_config (gcode : GCode) (z : ZProbe) :
  probe_rate gcode z = probe_rate gcode (config z).
Proof. reflexivity. Qed.

(** Rewrites a configuration-only function of a later world into the same
    function of the first one; [lem] says the function reads the
    configuration only. *)
Ltac frame lem :=
  repeat match goal with
         | H : config (zp ?x) = _ |- context [zp ?x] => rewrite (lem (zp x))
         end;
  unwind;
  rewrite <- ?lem.

(** ** [run_probe] *)

(** The end of [run_probe], from the statement after disarming on. *)
Ltac finish_run_probe :=
  step;
  match goal with
  | Hd : probing (zp ?wd) = false |- post _ _ ?wd _ =>
      let E := fresh "Edet" in
      destruct (probe_detected (zp wd)) eqn:E; [do 4 step | do 3 step];
      unwind; rewrite E
  end;
  (split; [reflexivity|]);
  (split; [discriminate|]); intros _;
  (split; [reflexivity|]);
  (split; [reflexivity|]);
  cbn [fst snd]; eexists;
  frame probe_delta_config;
  rewrite <- ?app_assoc; cbn [app]; reflexivity.

Lemma run_probe_spec (env : Env) (w : World) (mm f d : float) (rev : bool) :
  post (run_probe mm f d rev) env w (fun res w' =>
    config (zp w') = config (zp w) /\
    (pin_get env (clock w) = true -> res = (false, mm) /\ w' = tick env w) /\
    (pin_get env (clock w) = false ->
       probing (zp w') = false /\
       fst res = probe_detected (zp w') /\
       exists flag,
         commands (log w')
         = commands (log w)
           ++ probe_calls (zp w) f d rev (snd res) flag (fst res))).
Proof.
  unfold run_probe. step.
  destruct (pin_get env (clock w)) eqn:Epin.
  - step. repeat split; auto; discriminate.
  - step. unfold run_probe_arm. do 5 step.
    frame dwell_config. frame probe_distance_config.
    unfold probe_calls, dwell_calls.
    destruct (F32.gtb (dwell_before_probing (zp w)) F32.lit_0_0001).
    + do 9 step. finish_run_probe.
    + do 8 step. finish_run_probe.
Qed.

(** ** The move helpers *)

Ltac move_spec :=
  repeat step; unwind;
  repeat split; try reflexivity;
  unfold move_calls; rewrite <- ?app_assoc; reflexivity.

Lemma move_x_spec (env : Env) (w : World) (x f : float) (rel : bool) :
  post (move_x x f rel) env w (fun _ w' =>
    config (zp w') = config (zp w) /\
    probing (zp w') = probing (zp w) /\
    commands (log w')
    = commands (log w)
      ++ move_calls rel [("X"%char, x); ("F"%char, mm_per_min f)] false).
Proof. unfold move_x. move_spec. Qed.

Lemma move_y_spec (env : Env) (w : World) (y f : float) (rel : bool) :
  post (move_y y f rel) env w (fun _ w' =>
    config (zp w') = config (zp w) /\
    probing (zp w') = probing (zp w) /\
    commands (log w')
    = commands (log w)
      ++ move_calls rel [("Y"%char, y); ("F"%char, mm_per_min f)] true).
Proof. unfold move_y. move_spec. Qed.

Lemma move_z_spec (env : Env) (w : World) (z f : float) (rel : bool) :
  post (move_z z f rel) env w (fun _ w' =>
    config (zp w') = config (zp w) /\
    probing (zp w') = probing (zp w) /\
    commands (log w')
    = commands (log w)
      ++ move_calls rel [("Z"%char, z); ("F"%char, mm_per_min f)] true).
Proof. unfold move_z. move_spec. Qed.

Lemma move_xy_spec (env : Env) (w : World) (x y f : float) (rel : bool) :
  post (move_xy x y f rel) env w (fun _ w' =>
    config (zp w') = config (zp w) /\
    probing (zp w') = probing (zp w) /\
    commands (log w')
    = commands (log w)
      ++ move_calls rel
           [("X"%char, x); ("Y"%char, y); ("F"%char, mm_per_min f)] true).
Proof. unfold move_xy. move_spec. Qed.

(** ** [run_probe_return] *)

Lemma run_probe_return_spec (env : Env) (w : World) (mm f d : float)
  (rev : bool) :
  post (run_probe_return mm f d rev) env w (fun res w' =>
    exists w2,
      run_probe mm f d rev env (tick env w) = Done res w2 /\
      config (zp w') = config (zp w) /\
      commands (log w')
      = commands (log w2)
        ++ move_calls false
             [("Z"%char, get_axis_position env (clock w) Z_AXIS);
              ("F"%char, mm_per_min (resolve_return_feedrate (zp w)))]
             true).
Proof.
  unfold run_probe_return. step.
  destruct (run_probe_spec env w0 mm f d rev)
    as (res & w2 & Hrun & Hc2 & _ & _).
  apply post_bind. exists res, w2. split; [exact Hrun|].
  destruct res as [ok mm']. step.
  apply post_bind.
  eapply post_consequence; [apply move_z_spec|].
  intros [] w3 (Hc3 & Hp3 & Hl3). step.
  exists w2. subst w0. split; [exact Hrun|].
  assert (Hc4 : config (zp w2) = config (zp w)) by now rewrite Hc2.
  split; [now rewrite Hc3|].
  rewrite Hl3.
  now rewrite (resolve_return_feedrate_config (zp w2)), Hc4,
    <- resolve_return_feedrate_config.
Qed.

(** ** [probe_XYZ] *)

Lemma probe_XYZ_spec (env : Env) (w : World) (gcode : GCode) (axis : nat) :
  post (probe_XYZ gcode axis) env w (fun _ w' =>
    config (zp w') = config (zp w) /\
    probing (zp w') = false /\
    exists k,
      let flag := if probe_detected (zp w') then 1 else 0 in
      commands (log w')
      = commands (log w)
        ++ [SetDisableSegmentation true]
        ++ axis_move_calls gcode (zp w) axis
        ++ [SetDisableSegmentation false;
            ResetPositionFromCurrentActuatorPosition]
        ++ report_calls (get_axis_position env k X_AXIS)
             (get_axis_position env k Y_AXIS)
             (get_axis_position env k Z_AXIS)
             flag (get_subcode gcode)).
Proof.
  unfold probe_XYZ, probe_XYZ_arm. do 4 step.
  frame (probe_rate_config gcode).
  apply post_bind.
  assert (Hmove :
    post match axis with
         | 0%nat => move_x (get_arg gcode "X") (probe_rate gcode (zp w)) true
         | 1%nat => move_y (get_arg gcode "Y") (probe_rate gcode (zp w)) true
         | 2%nat => move_z (get_arg gcode "Z") (probe_rate gcode (zp w)) true
         | _ => ret tt
         end env w2
      (fun _ wm =>
         config (zp wm) = config (zp w) /\
         commands (log wm)
         = commands (log w) ++ [SetDisableSegmentation true]
           ++ axis_move_calls gcode (zp w) axis)).
  { destruct axis as [|[|[|n]]]; unfold axis_move_calls.
    - eapply post_consequence; [apply move_x_spec|].
      intros _ wm (Hcm & _ & Hlm). rewrite Hcm, Hlm. unwind.
      now rewrite <- app_assoc.
    - eapply post_consequence; [apply move_y_spec|].
      intros _ wm (Hcm & _ & Hlm). rewrite Hcm, Hlm. unwind.
      now rewrite <- app_assoc.
    - eapply post_consequence; [apply move_z_spec|].
      intros _ wm (Hcm & _ & Hlm). rewrite Hcm, Hlm. unwind.
      now rewrite <- app_assoc.
    - step. unwind. now rewrite app_nil_r. }
  eapply post_consequence; [exact Hmove|]. clear Hmove.
  intros _ wm (Hcm & Hlm). do 4 step. cbn beta iota. step. unwind.
  match goal with
  | |- context [probe_detected (zp ?wd)] =>
      destruct (probe_detected (zp wd)) eqn:Edet
  end; cbn [Z.eqb andb].
  - do 3 step. unwind. rewrite Edet.
    repeat split. eexists. unfold report_calls. cbn [Z.eqb andb].
    rewrite <- ?app_assoc. cbn [app]. reflexivity.
  - destruct (get_subcode gcode =? 2) eqn:Esub.
    + do 5 step. unwind. rewrite Edet.
      repeat split. eexists. unfold report_calls. rewrite Esub. cbn [Z.eqb andb].
      rewrite <- ?app_assoc. cbn [app]. reflexivity.
    + do 3 step. unwind. rewrite Edet.
      repeat split. eexists. unfold report_calls. rewrite Esub. cbn [Z.eqb andb].
      rewrite <- ?app_assoc. cbn [app]. reflexivity.
Qed.

(** ** Views *)

(** The sampler's stops apart, a view of the log is a view of the command
    domain's calls. *)
Lemma filter_commands (p : event -> bool) (l : list event) :
  (forall e, p e = true -> is_stop e = false) ->
  filter p (commands l) = filter p l.
Proof.
  intro H. unfold commands.
  induction l as [|e l IH]; [reflexivity|].
  cbn [filter]. destruct (is_stop e) eqn:Es; cbn [negb filter].
  - destruct (p e) eqn:Ep; [|exact IH].
    apply H in Ep. congruence.
  - now rewrite IH.
Qed.

Lemma reconciliations_commands (l : list event) :
  reconciliations (commands l) = reconciliations l.
Proof.
  unfold reconciliations. rewrite filter_commands; [reflexivity|].
  now intros [].
Qed.

Lemma moves_commands (l : list event) : moves (commands l) = moves l.
Proof. apply filter_commands. now intros []. Qed.

Lemma outputs_commands (l : list event) : outputs (commands l) = outputs l.
Proof. apply filter_commands. now intros []. Qed.

Lemma reconciliations_app (l1 l2 : list event) :
  reconciliations (l1 ++ l2)
  = (reconciliations l1 + reconciliations l2)%nat.
Proof.
  unfold reconciliations. now rewrite filter_app, length_app.
Qed.

Lemma reconciliations_probe_calls z f d rev mm flag r :
  reconciliations (probe_calls z f d rev mm flag r)
  = if r then 1%nat else 0%nat.
Proof.
  unfold probe_calls, dwell_calls.
  destruct (F32.gtb (dwell_before_probing z) F32.lit_0_0001), r; reflexivity.
Qed.

Lemma moves_probe_calls z f d rev mm flag r :
  moves (probe_calls z f d rev mm flag r)
  = [DeltaMove (probe_delta z rev (probe_distance z d)) f 3].
Proof.
  unfold probe_calls, dwell_calls.
  destruct (F32.gtb (dwell_before_probing z) F32.lit_0_0001), r; reflexivity.
Qed.

Lemma reconciliations_axis_move_calls gcode z axis :
  reconciliations (axis_move_calls gcode z axis) = 0%nat.
Proof. destruct axis as [|[|[|n]]]; reflexivity. Qed.

Lemma outputs_axis_move_calls gcode z axis :
  outputs (axis_move_calls gcode z axis) = [].
Proof. destruct axis as [|[|[|n]]]; reflexivity. Qed.

Lemma reconciliations_report_calls px py pz flag subcode :
  reconciliations (report_calls px py pz flag subcode) = 0%nat.
Proof.
  unfold report_calls.
  destruct ((flag =? 0) && (subcode =? 2)); reflexivity.
Qed.

(** * Checked properties *)

(** ** The sampler's session invariant *)

Lemma confirmations_detected (env : Env) (l : list TickInput) (w : World) :
  probe_detected (zp w) = true -> confirmations env l w = 0%nat.
Proof.
  induction l as [|i l IH]; intro H; cbn; [reflexivity|].
  rewrite read_probe_idle by tauto.
  rewrite H; cbn. now apply IH.
Qed.

Lemma confirmations_at_most_once (env : Env) (l : list TickInput) (w : World) :
  (confirmations env l w <= 1)%nat.
Proof.
  revert w; induction l as [|i l IH]; intro w; cbn; [lia|].
  destruct (negb (probe_detected (zp w))
            && probe_detected (zp (read_probe env i w))) eqn:E.
  - apply andb_true_iff in E as [_ E].
    rewrite (confirmations_detected env l _ E). lia.
  - specialize (IH (read_probe env i w)). lia.
Qed.

(** The only firing that sets the flag is the confirming one, and it has
    stopped every actuator before it sets it. *)
Lemma read_probe_confirming (env : Env) (i : TickInput) (u : World) :
  probe_detected (zp u) = false ->
  probe_detected (zp (read_probe env i u)) = true ->
  probing (zp u) = true /\
  any_moving i = true /\
  pin i = true /\
  read_probe env i u
  = update (set_debounce 0)
      (update (set_probe_detected true) (stop_all (n_actuators env) u)).
Proof.
  unfold read_probe. intros Hu.
  destruct (probing (zp u)) eqn:Hp; rewrite Hu; cbn [negb orb];
    [|congruence].
  destruct (any_moving i); [|congruence].
  destruct (pin i);
    [|intro H; rewrite zp_update in H; cbn in H; congruence].
  destruct (debounce (zp u) <? debounce_ms (zp u));
    [intro H; rewrite zp_update in H; cbn in H; congruence|].
  intros _. auto.
Qed.

(** C1. Over every sequence of sampler firings, [pre ++ i :: rest] from any
    world [w], and for the firing [i] in it: [probe_detected] goes from false
    to true only if the session is armed, and then every actuator's stop is
    already in the log, issued by this same firing, at a moment when the flag
    still reads false; a firing that finds the session disarmed, or already
    detected, or no primary axis moving leaves the whole world as it is (no
    session field changes, no stop is issued); and the flag is set at most
    once over the whole sequence. *)
Theorem read_probe_detects_only_armed_after_stopping
  (env : Env) (pre rest : list TickInput) (i : TickInput) (w : World) :
  let u := run_ticks env pre w in
  let v := read_probe env i u in
  (probe_detected (zp u) = false -> probe_detected (zp v) = true ->
     probing (zp u) = true /\
     let mid := stop_all (n_actuators env) u in
     probe_detected (zp mid) = false /\
     log mid = log u ++ map StopMoving (seq 0 (n_actuators env)) /\
     (forall a, (a < n_actuators env)%nat -> In (StopMoving a) (log mid)) /\
     v = update (set_debounce 0) (update (set_probe_detected true) mid)) /\
  (probing (zp u) = false \/ probe_detected (zp u) = true
   \/ any_moving i = false -> v = u) /\
  (confirmations env (pre ++ i :: rest) w <= 1)%nat.
Proof.
  intros u v. split; [|split].
  - intros Hu Hv.
    destruct (read_probe_confirming env i u Hu Hv) as (Hp & _ & _ & Heq).
    split; [exact Hp|]. cbn zeta.
    rewrite stop_all_zp, stop_all_log.
    repeat split; auto.
    intros a Ha. apply in_or_app. right.
    apply in_map, in_seq. lia.
  - apply read_probe_idle.
  - apply confirmations_at_most_once.
Qed.

Lemma read_probe_detects_only_armed_after_stopping_witness :
  let env := machine false (fun _ => []) in
  let u := start (set_probing true (configured 0)) in
  let v := read_probe env (z_moving_tick true) u in
  probing (zp u) = true /\
  probe_detected (zp (stop_all 3 u)) = false /\
  log (stop_all 3 u) = [StopMoving 0; StopMoving 1; StopMoving 2] /\
  (forall a, (a < 3)%nat -> In (StopMoving a) (log (stop_all 3 u))) /\
  v = update (set_debounce 0) (update (set_probe_detected true) (stop_all 3 u)).
Proof.
  exact (proj1 (read_probe_detects_only_armed_after_stopping
                  (machine false (fun _ => [])) [] [] (z_moving_tick true)
                  (start (set_probing true (configured 0))))
           eq_refl eq_refl).
Defined.

(** ** The debouncer *)

(** An active in-motion sample below the threshold counts, and nothing else
    happens. *)
Lemma read_probe_counts (env : Env) (i : TickInput) (w : World) :
  probing (zp w) = true -> probe_detected (zp w) = false ->
  any_moving i = true -> pin i = true ->
  0 <= debounce (zp w) < debounce_ms (zp w) ->
  debounce_ms (zp w) < 2 ^ counter_bits env ->
  read_probe env i w = update (set_debounce (debounce (zp w) + 1)) w.
Proof.
  intros Hp Hd Hm Hpin Hlt Hmax. unfold read_probe.
  rewrite Hp, Hd, Hm, Hpin. cbn [negb orb].
  destruct (Z.ltb_spec (debounce (zp w)) (debounce_ms (zp w))); [|lia].
  unfold update, incr; cbn beta. rewrite Z.mod_small by lia. reflexivity.
Qed.

(** An active in-motion sample at the threshold confirms: every actuator is
    stopped, the flag is set and the counter cleared. *)
Lemma read_probe_confirms (env : Env) (i : TickInput) (w : World) :
  probing (zp w) = true -> probe_detected (zp w) = false ->
  any_moving i = true -> pin i = true ->
  debounce_ms (zp w) <= debounce (zp w) ->
  read_probe env i w
  = update (set_debounce 0)
      (update (set_probe_detected true) (stop_all (n_actuators env) w)).
Proof.
  intros Hp Hd Hm Hpin Hge. unfold read_probe.
  rewrite Hp, Hd, Hm, Hpin. cbn [negb orb].
  destruct (Z.ltb_spec (debounce (zp w)) (debounce_ms (zp w))); [lia|].
  reflexivity.
Qed.

(** An inactive in-motion sample clears the counter. *)
Lemma read_probe_inactive (env : Env) (i : TickInput) (w : World) :
  probing (zp w) = true -> probe_detected (zp w) = false ->
  any_moving i = true -> pin i = false ->
  read_probe env i w = update (set_debounce 0) w.
Proof.
  intros Hp Hd Hm Hpin. unfold read_probe.
  now rewrite Hp, Hd, Hm, Hpin.
Qed.

(** A run of active in-motion samples that stays within the threshold only
    counts: the counter is the tally of the run on top of where it started. *)
Lemma active_run_counts (env : Env) (l : list TickInput) (w : World) :
  probing (zp w) = true -> probe_detected (zp w) = false ->
  Forall (fun i => any_moving i = true /\ pin i = true) l ->
  0 <= debounce (zp w) ->
  debounce (zp w) + Z.of_nat (List.length l) <= debounce_ms (zp w) ->
  debounce_ms (zp w) < 2 ^ counter_bits env ->
  let w' := run_ticks env l w in
  probing (zp w') = true /\ probe_detected (zp w') = false /\
  debounce (zp w') = debounce (zp w) + Z.of_nat (List.length l) /\
  debounce_ms (zp w') = debounce_ms (zp w) /\
  log w' = log w.
Proof.
  intros Hp Hd Hall. revert w Hp Hd.
  induction Hall as [|i l [Hm Hpin] Hl IH]; intros w Hp Hd H0 Hle Hmax.
  - cbn. repeat split; auto. lia.
  - cbn [List.length] in Hle. rewrite Nat2Z.inj_succ in Hle.
    cbn zeta. change (run_ticks env (i :: l) w)
      with (run_ticks env l (read_probe env i w)).
    rewrite read_probe_counts by (auto; lia).
    set (w1 := update (set_debounce (debounce (zp w) + 1)) w).
    assert (Hz1 : zp w1 = set_debounce (debounce (zp w) + 1) (zp w))
      by reflexivity.
    destruct (IH w1) as (H1 & H2 & H3 & H4 & H5);
      rewrite ?Hz1;
      cbn [probing probe_detected debounce debounce_ms set_debounce];
      auto; try lia.
    repeat split; auto.
    rewrite H3, Hz1. cbn [List.length debounce set_debounce].
    rewrite Nat2Z.inj_succ. lia.
Qed.

(** From a cleared counter, [t] consecutive active in-motion samples do not
    confirm and the next one does. *)
Lemma debounce_from_zero (env : Env) (l : list TickInput) (i : TickInput)
  (w : World) :
  probing (zp w) = true -> probe_detected (zp w) = false ->
  debounce (zp w) = 0 ->
  Z.of_nat (List.length l) = debounce_ms (zp w) ->
  debounce_ms (zp w) < 2 ^ counter_bits env ->
  Forall (fun i => any_moving i = true /\ pin i = true) (l ++ [i]) ->
  let w' := run_ticks env l w in
  probe_detected (zp w') = false /\ log w' = log w /\
  probe_detected (zp (read_probe env i w')) = true /\
  debounce (zp (read_probe env i w')) = 0.
Proof.
  intros Hp Hd H0 Hlen Hmax Hall.
  apply Forall_app in Hall as [Hl Hi].
  inversion Hi as [|? ? [Hm Hpin] _]; subst.
  destruct (active_run_counts env l w Hp Hd Hl) as (H1 & H2 & H3 & H4 & H5);
    try lia.
  cbn zeta. repeat split; auto.
  - rewrite read_probe_confirms; auto. rewrite H3, H4. lia.
  - rewrite read_probe_confirms; auto. rewrite H3, H4. lia.
Qed.

(** C2. With a debounce threshold of 1 a trigger needs two consecutive
    active samples.  A [G30] whose probing move ends on one active sample
    reports the probe as not triggered and leaves the counter at 1.  The
    [G38.3 Z-10] that follows finds the pin inactive, arms its session through
    [probe_XYZ] without clearing the counter, and is confirmed, with every
    actuator stopped and a trigger flag of 1 in its report, on the single
    active sample the sampler sees in that session.  The same command from a
    cleared counter is not confirmed. *)
Theorem stale_debounce_confirms_on_first_sample :
  let env := machine false stale_schedule in
  exists w1 w2 w3,
    handle_gcode G30 env (start (configured 1)) = Done true w1 /\
    outputs (log w1) = [Printf "ZProbe not triggered\n" []] /\
    probing (zp w1) = false /\ debounce (zp w1) = 1 /\
    handle_gcode G38_3_Z env w1 = Done true w2 /\
    probe_detected (zp w2) = true /\
    filter is_stop (log w2) = [StopMoving 0; StopMoving 1; StopMoving 2] /\
    outputs (log w2)
    = outputs (log w1)
      ++ [Printf "[PRB:%1.3f,%1.3f,%1.3f:%d]\n"
            [PFloat F32.zero; PFloat F32.zero; PFloat F32.zero; PInt 1]] /\
    handle_gcode G38_3_Z env (update (set_debounce 0) w1) = Done true w3 /\
    probe_detected (zp w3) = false.
Proof.
  eexists _, _, _.
  split; [vm_compute; reflexivity|].
  split; [reflexivity|].
  split; [reflexivity|].
  split; [reflexivity|].
  split; [vm_compute; reflexivity|].
  split; [reflexivity|].
  split; [reflexivity|].
  split; [reflexivity|].
  split; [vm_compute; reflexivity|].
  reflexivity.
Qed.

(** ** [run_probe] with the pin already active *)

(** C3, as stated, fails: the output parameter is not written.  A call that
    enters with the pin active and 5 in [mm] returns with 5 in [mm], which is
    not zero. *)
Lemma run_probe_abort_keeps_distance :
  exists w',
    run_probe (F32.of_int 5) (F32.of_int 5) (F32.of_int 10) false
      (machine true (fun _ => [])) (start (configured 0))
    = Done (false, F32.of_int 5) w' /\
    F32.eqb (F32.of_int 5) F32.zero = false.
Proof.
  eexists. split; [vm_compute; reflexivity|reflexivity].
Qed.

(** C3, amended.  A [run_probe] that finds the pin active at entry returns
    false at once and leaves the output parameter as it was; it does not arm
    the session, and the command domain makes no call: no move, no record of
    a probe position, no sleep.  With the session disarmed at entry (as every
    operation leaves it) nothing at all happens: the object and the log,
    stops included, are unchanged. *)
Theorem run_probe_aborts_when_triggered
  (env : Env) (w : World) (mm feedrate max_dist : float) (reverse : bool) :
  pin_get env (clock w) = true ->
  exists w',
    run_probe mm feedrate max_dist reverse env w = Done (false, mm) w' /\
    probing (zp w') = probing (zp w) /\
    commands (log w') = commands (log w) /\
    (probing (zp w) = false -> zp w' = zp w /\ log w' = log w).
Proof.
  intro Hpin.
  destruct (run_probe_spec env w mm feedrate max_dist reverse)
    as (res & w' & Hrun & _ & Habort & _).
  destruct (Habort Hpin) as [-> ->].
  exists (tick env w). split; [exact Hrun|].
  split; [apply tick_probing|].
  split; [apply tick_commands|].
  intro Hd. split; [now apply tick_disarmed_zp | now apply tick_disarmed_log].
Qed.

Lemma run_probe_aborts_when_triggered_witness :
  exists w',
    run_probe (F32.of_int 5) (F32.of_int 5) (F32.of_int 10) false
      (machine true (fun _ => [])) (start (configured 0))
    = Done (false, F32.of_int 5) w' /\
    zp w' = configured 0 /\ log w' = [].
Proof.
  destruct (run_probe_aborts_when_triggered
              (machine true (fun _ => [])) (start (configured 0))
              (F32.of_int 5) (F32.of_int 5) (F32.of_int 10) false eq_refl)
    as (w' & Hrun & _ & _ & Hsame).
  exists w'. split; [exact Hrun | exact (Hsame eq_refl)].
Defined.

(** ** Position reconciliation *)

(** C4. [run_probe] asks the robot to reset its position from the actuators
    exactly once when it returns true and not at all when it returns false,
    and what it returns past the pin check is the [probe_detected] flag (a
    call that finds the pin active returns false); [probe_XYZ] asks for it
    exactly once, whatever the axis, the command and the outcome.  Both
    operations return, and the request is in the log when they do. *)
Theorem reconciliation_policy (env : Env) (w : World) :
  (forall (mm feedrate max_dist : float) (reverse : bool),
     post (run_probe mm feedrate max_dist reverse) env w (fun res w' =>
       reconciliations (log w')
       = (reconciliations (log w) + (if fst res then 1 else 0))%nat /\
       (if pin_get env (clock w) then fst res = false
        else fst res = probe_detected (zp w')))) /\
  (forall (gcode : GCode) (axis : nat),
     post (probe_XYZ gcode axis) env w (fun _ w' =>
       reconciliations (log w') = (reconciliations (log w) + 1)%nat)).
Proof.
  split.
  - intros mm feedrate max_dist reverse.
    eapply post_consequence; [apply run_probe_spec|].
    intros res w' (_ & Habort & Hprobe).
    destruct (pin_get env (clock w)).
    + destruct Habort as [-> ->]; [reflexivity|].
      cbn [fst]. split; [|reflexivity].
      rewrite <- (reconciliations_commands (log (tick env w))), tick_commands,
        reconciliations_commands.
      lia.
    + destruct Hprobe as (_ & Hres & flag & Hlog); [reflexivity|].
      split; [|exact Hres].
      rewrite <- (reconciliations_commands (log w')), Hlog,
        reconciliations_app, reconciliations_commands,
        reconciliations_probe_calls.
      now destruct (fst res).
  - intros gcode axis.
    eapply post_consequence; [apply probe_XYZ_spec|].
    intros _ w' (_ & _ & k & Hlog). cbn zeta in Hlog.
    rewrite <- (reconciliations_commands (log w')), Hlog.
    rewrite !reconciliations_app, reconciliations_commands,
      reconciliations_axis_move_calls, reconciliations_report_calls.
    cbn. lia.
Qed.

(** ** The probing move *)

(** C6. A [run_probe] that gets past the pin check issues exactly one move,
    a delta move of three axes whose X and Y entries are zero (one that finds
    the pin active issues none).  The magnitude of its Z entry is twice the
    configured [max_z] when [max_dist] is negative (the sentinel) and
    [max_dist] otherwise; the entry is negated exactly when [reverse_z] is
    equal to [reverse], so flipping [reverse] negates the Z entry. *)
Theorem run_probe_moves_along_z
  (env : Env) (w : World) (mm feedrate max_dist : float) (reverse : bool) :
  let maxz :=
    if F32.ltb max_dist F32.zero
    then F32.mul (max_z (zp w)) (F32.of_int 2)
    else max_dist in
  let dz (rev : bool) :=
    if xorb (negb (reverse_z (zp w))) rev then F32.neg maxz else maxz in
  post (run_probe mm feedrate max_dist reverse) env w (fun _ w' =>
    moves (log w')
    = moves (log w)
      ++ (if pin_get env (clock w) then []
          else [DeltaMove [F32.zero; F32.zero; dz reverse] feedrate 3])) /\
  F32.abs (dz reverse) = F32.abs maxz /\
  dz (negb reverse) = F32.neg (dz reverse).
Proof.
  intros maxz dz. split; [|split].
  - eapply post_consequence; [apply run_probe_spec|].
    intros res w' (_ & Habort & Hprobe).
    destruct (pin_get env (clock w)).
    + destruct Habort as [_ ->]; [reflexivity|].
      now rewrite app_nil_r, <- (moves_commands (log (tick env w))),
        tick_commands, moves_commands.
    + destruct Hprobe as (_ & _ & flag & Hlog); [reflexivity|].
      rewrite <- (moves_commands (log w')), Hlog.
      unfold moves at 1. rewrite filter_app.
      fold (moves (commands (log w))).
      fold (moves (probe_calls (zp w) feedrate max_dist reverse
                     (snd res) flag (fst res))).
      now rewrite moves_commands, moves_probe_calls.
  - unfold dz.
    destruct (xorb (negb (reverse_z (zp w))) reverse);
      [apply abs_neg | reflexivity].
  - unfold dz.
    destruct (reverse_z (zp w)), reverse; cbn [negb xorb];
      now rewrite ?neg_involutive.
Qed.

(** ** [run_probe_return] *)

(** C7. [run_probe_return] reads the Z position, runs [run_probe], and then,
    whatever that returned, makes the calls of one move: it saves the state,
    selects absolute mode and machine coordinates, dispatches [G0 Z<the
    position read> F<fr * 60>], waits for the queue to idle and restores the
    state.  [fr] is the configured [return_feedrate] when that is not zero;
    otherwise it is twice the slow feedrate, or the fast feedrate when twice
    the slow one exceeds it, so it never exceeds the fast feedrate.  The
    operation returns what the inner [run_probe] returned. *)
Theorem run_probe_return_moves_back
  (env : Env) (w : World) (mm feedrate max_dist : float) (reverse : bool) :
  let z := zp w in
  let twice := F32.mul (slow_feedrate z) (F32.of_int 2) in
  let fr :=
    if F32.neb (return_feedrate z) F32.zero then return_feedrate z
    else if F32.gtb twice (fast_feedrate z) then fast_feedrate z
    else twice in
  post (run_probe_return mm feedrate max_dist reverse) env w (fun res w' =>
    exists w2,
      run_probe mm feedrate max_dist reverse env (tick env w) = Done res w2 /\
      commands (log w')
      = commands (log w2)
        ++ [PushState; SetAbsoluteMode true; SetNextCommandIsMCS true;
            Dispatch NullOs "G" 0
              [("Z"%char, get_axis_position env (clock w) Z_AXIS);
               ("F"%char, F32.mul fr (F32.of_int 60))];
            WaitForIdle; PopState]) /\
  (F32.neb (return_feedrate z) F32.zero = false ->
   F32.gtb fr (fast_feedrate z) = false).
Proof.
  intros z twice fr. split.
  - eapply post_consequence; [apply run_probe_return_spec|].
    intros res w' (w2 & Hrun & _ & Hlog).
    exists w2. split; [exact Hrun|]. exact Hlog.
  - intro Hzero. unfold fr. rewrite Hzero.
    destruct (F32.gtb twice (fast_feedrate z)) eqn:E;
      [apply gtb_irrefl | exact E].
Qed.

(** ** The straight-probe report *)

(** C8. Every [probe_XYZ] prints, after its move, one report line
    [[PRB:%1.3f,%1.3f,%1.3f:%d]] whose arguments are the three machine
    coordinates the robot reports and the trigger flag, 1 when
    [probe_detected] is set and 0 otherwise.  It then prints
    [ALARM: Probe fail] and broadcasts a halt exactly when the flag is 0 and
    the subcode is 2; it prints and broadcasts nothing else. *)
Theorem probe_XYZ_reports
  (env : Env) (w : World) (gcode : GCode) (axis : nat) :
  post (probe_XYZ gcode axis) env w (fun _ w' =>
    exists k,
      let flag := if probe_detected (zp w') then 1 else 0 in
      let strict_failure := (flag =? 0) && (get_subcode gcode =? 2) in
      outputs (log w')
      = outputs (log w)
        ++ [Printf "[PRB:%1.3f,%1.3f,%1.3f:%d]\n"
              [PFloat (get_axis_position env k X_AXIS);
               PFloat (get_axis_position env k Y_AXIS);
               PFloat (get_axis_position env k Z_AXIS);
               PInt flag]]
        ++ (if strict_failure
            then [Printf "ALARM: Probe fail\n" []; BroadcastHalt true]
            else [])).
Proof.
  eapply post_consequence; [apply probe_XYZ_spec|].
  intros _ w' (_ & _ & k & Hlog). exists k. cbn zeta in *.
  rewrite <- (outputs_commands (log w')), Hlog.
  unfold outputs at 1. rewrite !filter_app.
  fold (outputs (commands (log w))).
  fold (outputs (axis_move_calls gcode (zp w) axis)).
  rewrite outputs_commands, outputs_axis_move_calls.
  unfold report_calls. rewrite filter_app.
  destruct ((if probe_detected (zp w') then 1 else 0) =? 0);
    destruct (get_subcode gcode =? 2); reflexivity.
Qed.

(** ** The move helpers *)

(** C5. [move_x] restores the saved state right after dispatching its move:
    between the dispatch and [pop_state] it makes no call, so it does not wait
    for the motion queue to idle.  [move_y] and [move_z] make the same calls
    with the wait in between ([move_y_spec], [move_z_spec]). *)
Theorem move_x_does_not_wait
  (env : Env) (w : World) (x feedrate : float) (relative : bool) :
  post (move_x x feedrate relative) env w (fun _ w' =>
    commands (log w')
    = commands (log w)
      ++ [PushState; SetAbsoluteMode (negb relative); SetNextCommandIsMCS true;
          Dispatch NullOs "G" 0
            [("X"%char, x); ("F"%char, F32.mul feedrate (F32.of_int 60))];
          PopState]) /\
  post (move_z x feedrate relative) env w (fun _ w' =>
    commands (log w')
    = commands (log w)
      ++ [PushState; SetAbsoluteMode (negb relative); SetNextCommandIsMCS true;
          Dispatch NullOs "G" 0
            [("Z"%char, x); ("F"%char, F32.mul feedrate (F32.of_int 60))];
          WaitForIdle; PopState]).
Proof.
  split.
  - eapply post_consequence; [apply move_x_spec|].
    intros _ w' (_ & _ & Hlog). exact Hlog.
  - eapply post_consequence; [apply move_z_spec|].
    intros _ w' (_ & _ & Hlog). exact Hlog.
Qed.

(** ** Strategy dispatch *)

(** With both strategies configured and neither handling the command, the
    strategy family reports it unhandled: each strategy is asked in turn, the
    message is printed and the handler returns false. *)
Lemma handle_strategy_gcode_unhandled (env : Env) (w : World) (gcode : GCode)
  (a b : strategy) :
  leveling_strategy (zp w) = Some a ->
  calibration_strategy (zp w) = Some b ->
  has_arg gcode "P" = false ->
  strategy_handles env (clock w) a = false ->
  strategy_handles env (S (clock w)) b = false ->
  post (handle_strategy_gcode gcode) env w (fun r w' =>
    r = false /\
    commands (log w')
    = commands (log w)
      ++ [HandleGCode a; HandleGCode b;
          Printf "No strategy found to handle G%d\n" [PInt (get_code gcode)]]).
Proof.
  intros Ha Hb HP Hna Hnb. unfold handle_strategy_gcode.
  do 2 step. rewrite Ha, Hb, HP. cbn [negb].
  apply post_bind, post_handleGCode. intros w0 Hw0. facts Hw0.
  rewrite Hna.
  apply post_bind, post_handleGCode. intros w1 Hw1. facts Hw1.
  rewrite Hk, Hnb. do 2 step.
  split; [reflexivity|]. unwind.
  rewrite <- ?app_assoc. reflexivity.
Qed.

(** C9. With no strategy configured and the pin inactive, [G29] reaches
    [leveling_strategy->handleGCode] through the null pointer: the handler
    does not return. *)
Theorem handle_gcode_dereferences_absent_strategy :
  exists w',
    handle_gcode G29 (machine false (fun _ => [])) (start (configured 0))
    = NullDereference w'.
Proof.
  eexists. vm_compute. reflexivity.
Qed.

(** ** Arming *)

Lemma tick_at_rest (env : Env) (w : World) :
  Forall (fun i => any_moving i = false) (sampler_ticks env (clock w)) ->
  zp (tick env w) = zp w.
Proof.
  intro H. unfold tick; cbn. now rewrite run_ticks_no_motion.
Qed.

(** What the sampler does to the object depends on the object alone. *)
Lemma read_probe_zp (env : Env) (i : TickInput) (w : World) :
  zp (read_probe env i w) = zp (read_probe env i (start (zp w))).
Proof.
  unfold read_probe. cbn [zp start].
  destruct (negb (probing (zp w)) || probe_detected (zp w)); [reflexivity|].
  destruct (any_moving i); [|reflexivity].
  destruct (pin i); [|reflexivity].
  destruct (debounce (zp w) <? debounce_ms (zp w)); [reflexivity|].
  cbn zeta. now rewrite !zp_update, !stop_all_zp.
Qed.

Lemma run_ticks_zp (env : Env) (l : list TickInput) (w : World) :
  zp (run_ticks env l w) = sampled env l (zp w).
Proof.
  unfold sampled, run_ticks. revert w.
  induction l as [|i l IH]; intro w; [reflexivity|].
  cbn [fold_left].
  rewrite (IH (read_probe env i w)),
    (IH (read_probe env i (start (zp w)))).
  now rewrite read_probe_zp.
Qed.

Lemma sampled_app (env : Env) (l1 l2 : list TickInput) (z : ZProbe) :
  sampled env (l1 ++ l2) z = sampled env l2 (sampled env l1 z).
Proof.
  unfold sampled at 1 3. unfold run_ticks. rewrite fold_left_app.
  apply run_ticks_zp.
Qed.

Lemma sampled_nil (env : Env) (z : ZProbe) : sampled env [] z = z.
Proof. reflexivity. Qed.

Lemma sampled_at_rest (env : Env) (l : list TickInput) (z : ZProbe) :
  Forall (fun i => any_moving i = false) l -> sampled env l z = z.
Proof. intro H. unfold sampled. now rewrite run_ticks_no_motion. Qed.

Lemma sampled_disarmed (env : Env) (l : list TickInput) (z : ZProbe) :
  probing z = false -> sampled env l z = z.
Proof. intro H. unfold sampled. now rewrite run_ticks_idle by (now left). Qed.

Lemma tick_zp (env : Env) (w : World) :
  zp (tick env w) = sampled env (sampler_ticks env (clock w)) (zp w).
Proof. unfold tick. cbn [zp]. apply run_ticks_zp. Qed.

(** The object of the newest world, from its defining equation: what the
    firings of that scheduling point make of the object before them. *)
Ltac zfact :=
  lazymatch goal with
  | H : ?x = tick _ _ |- _ =>
      lazymatch goal with
      | _ : zp x = _ |- _ => idtac
      | _ =>
          let Hs := fresh "Hs" in
          pose proof (f_equal zp H) as Hs;
          rewrite tick_zp in Hs;
          rewrite ?zp_emit, ?zp_update, ?clock_emit, ?clock_update in Hs;
          repeat match goal with
                 | Hprev : zp ?y = _ |- _ =>
                     tryif constr_eq Hprev Hs then fail
                     else rewrite Hprev in Hs
                 | Hprev : clock ?y = _ |- _ => rewrite Hprev in Hs
                 end
      end
  end.

(** One statement, with the object tracked through its scheduling point. *)
Ltac track := cbn beta iota; step; zfact.

(** Closes a session: the object at the end is the sampler's run over the
    session's firings, disarmed. *)
Ltac close_session :=
  unwind;
  match goal with
  | Hs : zp ?x = sampled _ _ (set_probing false _) |- context [zp ?x] =>
      rewrite Hs
  end;
  rewrite sampled_disarmed by reflexivity;
  unfold firings;
  cbn [List.length app flat_map seq Nat.add axis_move_calls move_calls];
  rewrite ?app_nil_r, ?sampled_app;
  reflexivity.

(** C10. Arming through [probe_XYZ] carries the debounce counter into the
    session; arming through [run_probe] clears it.  With the machine at rest
    while the arming statements run (no sampler firing there sees a primary
    axis move), the session the sampler sees in [probe_XYZ] starts armed and
    undetected with the counter exactly as it was, whatever it was: the
    object [probe_XYZ] returns with is the one the sampler makes of that
    start over the firings of the session, one scheduling point per call up
    to the end of the move, disarmed.  For [run_probe], the pin being
    inactive at entry, the session starts armed and undetected with the
    counter at 0, and the operation returns with what the sampler makes of
    that start over the firings of its session, disarmed, and answers the
    trigger flag it ends with. *)
Theorem arming_and_the_debounce_counter (env : Env) (w : World) :
  let at_rest (k : nat) :=
    Forall (fun i => any_moving i = false) (sampler_ticks env k) in
  (forall (gcode : GCode) (axis : nat),
     (forall k, (clock w <= k < 2 + clock w)%nat -> at_rest k) ->
     let armed := set_probe_detected false (set_probing true (zp w)) in
     let session :=
       firings env (2 + clock w)
         (S (List.length (axis_move_calls gcode (zp w) axis))) in
     (probing armed = true /\ probe_detected armed = false /\
      debounce armed = debounce (zp w)) /\
     post (probe_XYZ gcode axis) env w (fun _ w' =>
       zp w' = set_probing false (sampled env session armed))) /\
  (forall (mm feedrate max_dist : float) (reverse : bool),
     pin_get env (clock w) = false ->
     (forall k, (clock w <= k < 4 + clock w)%nat -> at_rest k) ->
     let armed :=
       set_debounce 0 (set_probe_detected false (set_probing true (zp w))) in
     let session :=
       firings env (4 + clock w) (5 + List.length (dwell_calls (zp w))) in
     (probing armed = true /\ probe_detected armed = false /\
      debounce armed = 0) /\
     post (run_probe mm feedrate max_dist reverse) env w (fun res w' =>
       zp w' = set_probing false (sampled env session armed) /\
       fst res = probe_detected (zp w'))).
Proof.
  intro at_rest. split.
  - intros gcode axis Hrest armed session. split; [repeat split|].
    subst session armed.
    unfold probe_XYZ, probe_XYZ_arm.
    track. rewrite sampled_at_rest in Hs by (apply Hrest; lia).
    track. rewrite sampled_at_rest in Hs0 by (apply Hrest; lia).
    do 2 track.
    destruct axis as [|[|[|n]]]; unfold move_x, move_y, move_z;
      repeat track; close_session.
  - intros mm feedrate max_dist reverse Hpin Hrest armed session.
    split; [repeat split|]. subst session armed.
    unfold run_probe, run_probe_arm.
    track. rewrite Hpin. rewrite sampled_at_rest in Hs by (apply Hrest; lia).
    track.
    track. rewrite sampled_at_rest in Hs0 by (apply Hrest; lia).
    track. rewrite sampled_at_rest in Hs1 by (apply Hrest; lia).
    track. rewrite sampled_at_rest in Hs2 by (apply Hrest; lia).
    do 2 track.
    frame dwell_config.
    destruct (F32.gtb (dwell_before_probing (zp w)) F32.lit_0_0001) eqn:Edwell;
      repeat track;
      (split; [|reflexivity]);
      unfold dwell_calls; rewrite Edwell;
      close_session.
Qed.

Lemma arming_and_the_debounce_counter_witness :
  post (probe_XYZ G38_3_Z Z_AXIS) (machine false one_active_sample)
    (start (set_debounce 1 (configured 1)))
    (fun _ w' => probe_detected (zp w') = true) /\
  post (run_probe F32.zero (F32.of_int 5) (F32.of_int (-1)) false)
    (machine false one_active_sample)
    (start (set_debounce 1 (configured 1)))
    (fun res w' => probe_detected (zp w') = false /\ fst res = false).
Proof.
  destruct (arming_and_the_debounce_counter
              (machine false one_active_sample)
              (start (set_debounce 1 (configured 1)))) as [HX HR].
  split.
  - destruct (HX G38_3_Z Z_AXIS) as [_ H].
    + intros k Hk. destruct k as [|[|k]]; [constructor | constructor |].
      cbn in Hk. lia.
    + eapply post_consequence; [exact H|].
      intros _ w' ->. vm_compute. reflexivity.
  - destruct (HR F32.zero (F32.of_int 5) (F32.of_int (-1)) false) as [_ H].
    + reflexivity.
    + intros k Hk. destruct k as [|[|[|[|k]]]]; try constructor.
      cbn in Hk. lia.
    + eapply post_consequence; [exact H|].
      intros res w' [Hz ->]. rewrite Hz. vm_compute. split; reflexivity.
Defined.

(** * Further properties *)

(** ** The sampler *)

(** X1. A firing that finds no primary axis moving is skipped altogether: it
    neither counts nor clears.  A run of firings does what its in-motion
    firings alone do; in particular an inactive reading taken while the
    machine stands still does not reset the debounce counter. *)
Theorem run_ticks_skips_stationary_firings
  (env : Env) (l : list TickInput) (w : World) :
  run_ticks env l w = run_ticks env (filter any_moving l) w.
Proof.
  unfold run_ticks. revert w.
  induction l as [|i l IH]; intro w; [reflexivity|].
  cbn [filter fold_left]. destruct (any_moving i) eqn:Hm.
  - cbn [fold_left]. apply IH.
  - rewrite read_probe_idle by tauto. apply IH.
Qed.

Lemma read_probe_keeps_counter_in_range (env : Env) (i : TickInput) (w : World) :
  0 <= debounce (zp w) <= debounce_ms (zp w) ->
  0 <= debounce (zp (read_probe env i w)) <= debounce_ms (zp (read_probe env i w))
  /\ debounce_ms (zp (read_probe env i w)) = debounce_ms (zp w).
Proof.
  intro H. unfold read_probe.
  destruct (negb (probing (zp w)) || probe_detected (zp w)); [auto|].
  destruct (any_moving i); [|auto].
  destruct (pin i); [|rewrite zp_update; cbn; lia].
  destruct (Z.ltb_spec (debounce (zp w)) (debounce_ms (zp w))).
  - rewrite zp_update. cbn. unfold incr.
    split; [|reflexivity].
    assert (H2 : 0 <= 2 ^ counter_bits env) by apply Z.pow_nonneg, Z.le_0_2.
    destruct (Z.eq_dec (2 ^ counter_bits env) 0) as [E|E].
    + rewrite E, Z.mod_0_r. lia.
    + split; [apply Z.mod_pos_bound; lia|].
      transitivity (debounce (zp w) + 1); [apply Z.mod_le; lia | lia].
  - rewrite !zp_update, stop_all_zp. cbn. lia.
Qed.

(** X2. The debounce counter never leaves the range from 0 to the threshold:
    once it is there, no run of sampler firings takes it out, whatever the
    pin and the axes do, and the threshold itself is never changed.  So the
    increment never wraps, whatever the width of the counter. *)
Theorem debounce_stays_within_threshold
  (env : Env) (l : list TickInput) (w : World) :
  0 <= debounce (zp w) <= debounce_ms (zp w) ->
  0 <= debounce (zp (run_ticks env l w)) <= debounce_ms (zp w) /\
  debounce_ms (zp (run_ticks env l w)) = debounce_ms (zp w).
Proof.
  unfold run_ticks. revert w.
  induction l as [|i l IH]; intros w H; [cbn; lia|].
  cbn [fold_left].
  destruct (read_probe_keeps_counter_in_range env i w H) as [H1 H2].
  destruct (IH _ H1) as [H3 H4]. rewrite H2 in H3, H4. auto.
Qed.

Lemma debounce_stays_within_threshold_witness :
  0 <= debounce
         (zp (run_ticks (machine false (fun _ => []))
                [z_moving_tick true; z_moving_tick true; z_moving_tick false]
                (start (set_probing true (configured 3))))) <= 3 /\
  debounce_ms
    (zp (run_ticks (machine false (fun _ => []))
           [z_moving_tick true; z_moving_tick true; z_moving_tick false]
           (start (set_probing true (configured 3))))) = 3.
Proof.
  apply (debounce_stays_within_threshold (machine false (fun _ => []))
           [z_moving_tick true; z_moving_tick true; z_moving_tick false]
           (start (set_probing true (configured 3)))).
  cbn. lia.
Defined.

Lemma read_probe_log_exact (env : Env) (i : TickInput) (w : World) :
  log (read_probe env i w)
  = log w
    ++ (if negb (probe_detected (zp w))
           && probe_detected (zp (read_probe env i w))
        then map StopMoving (seq 0 (n_actuators env)) else []).
Proof.
  destruct (probe_detected (zp w)) eqn:Hd.
  - rewrite read_probe_idle by tauto. cbn. now rewrite app_nil_r.
  - cbn [negb andb].
    destruct (probe_detected (zp (read_probe env i w))) eqn:Hv.
    + destruct (read_probe_confirming env i w Hd Hv) as (_ & _ & _ & ->).
      now rewrite !log_update, stop_all_log.
    + revert Hv. unfold read_probe. rewrite Hd.
      destruct (negb (probing (zp w)) || false); [now rewrite app_nil_r|].
      destruct (any_moving i); [|now rewrite app_nil_r].
      destruct (pin i); [|now rewrite log_update, app_nil_r].
      destruct (debounce (zp w) <? debounce_ms (zp w));
        [now rewrite log_update, app_nil_r|].
      rewrite !zp_update. cbn. discriminate.
Qed.

(** X3. Over any run of sampler firings the log grows by stop commands only,
    and by one batch at most: nothing when the run confirms no trigger, and
    one stop for each actuator, in order, when it does.  No actuator is
    stopped twice, and the arming flag and the configuration are left as they
    were. *)
Theorem sampler_stops_every_actuator_once
  (env : Env) (l : list TickInput) (w : World) :
  log (run_ticks env l w)
  = log w
    ++ (match confirmations env l w with
        | O => []
        | S _ => map StopMoving (seq 0 (n_actuators env))
        end) /\
  probing (zp (run_ticks env l w)) = probing (zp w) /\
  config (zp (run_ticks env l w)) = config (zp w).
Proof.
  split; [|split; [apply run_ticks_probing | apply run_ticks_config]].
  unfold run_ticks. revert w.
  induction l as [|i l IH]; intro w; [cbn; now rewrite app_nil_r|].
  cbn [fold_left confirmations]. rewrite IH, read_probe_log_exact.
  destruct (negb (probe_detected (zp w))
            && probe_detected (zp (read_probe env i w))) eqn:E.
  - apply andb_true_iff in E as [_ E].
    rewrite (confirmations_detected env l _ E). cbn.
    now rewrite app_nil_r.
  - cbn. now rewrite app_nil_r.
Qed.

(** ** The debouncer over whole sample sequences *)

Lemma run_ticks_snoc (env : Env) (l : list TickInput) (i : TickInput)
  (w : World) :
  run_ticks env (l ++ [i]) w = read_probe env i (run_ticks env l w).
Proof. unfold run_ticks. now rewrite fold_left_app. Qed.

Lemma run_ticks_concat (env : Env) (l1 l2 : list TickInput) (w : World) :
  run_ticks env (l1 ++ l2) w = run_ticks env l2 (run_ticks env l1 w).
Proof. unfold run_ticks. now rewrite fold_left_app. Qed.

(** While the flag is clear, the counter is the length of a run of active
    samples that ends the sequence read so far; once the flag is set, the
    sequence holds a full run. *)
Lemma debouncer_invariant (env : Env) (t : nat) (l : list TickInput)
  (w : World) :
  probing (zp w) = true -> probe_detected (zp w) = false ->
  debounce (zp w) = 0 -> debounce_ms (zp w) = Z.of_nat t ->
  Z.of_nat t < 2 ^ counter_bits env ->
  Forall (fun i => any_moving i = true) l ->
  let w' := run_ticks env l w in
  (probe_detected (zp w') = true /\
   exists l1 l2, map pin l = l1 ++ repeat true (S t) ++ l2) \/
  (probe_detected (zp w') = false /\
   exists (c : nat) pre,
     debounce (zp w') = Z.of_nat c /\ (c <= t)%nat /\
     map pin l = pre ++ repeat true c).
Proof.
  intros Hp Hd H0 Ht Hbits. cbn zeta.
  induction l as [|i l IH] using rev_ind; intro Hall.
  - right. split; [exact Hd|]. exists 0%nat, []. cbn. repeat split; auto. lia.
  - apply Forall_app in Hall as [Hl Hi].
    inversion Hi as [|? ? Hm _]; subst.
    rewrite run_ticks_snoc, map_app. cbn [map].
    assert (Hp' : probing (zp (run_ticks env l w)) = true)
      by now rewrite run_ticks_probing.
    assert (Ht' : debounce_ms (zp (run_ticks env l w)) = Z.of_nat t).
    { rewrite <- Ht.
      change (debounce_ms (config (zp (run_ticks env l w)))
              = debounce_ms (config (zp w))).
      now rewrite run_ticks_config. }
    destruct (IH Hl) as [[Hdet (l1 & l2 & Hrun)] | (Hund & c & pre & Hc & Hle & Hpre)].
    + left. rewrite read_probe_idle by tauto. split; [exact Hdet|].
      exists l1, (l2 ++ [pin i]). rewrite Hrun. now rewrite <- !app_assoc.
    + destruct (pin i) eqn:Hpin.
      * destruct (Nat.eq_dec c t) as [-> | Hne].
        -- left. rewrite read_probe_confirms by (auto; lia).
           split; [reflexivity|].
           exists pre, []. rewrite Hpre, app_nil_r, <- app_assoc.
           f_equal. now rewrite <- repeat_cons.
        -- right. rewrite read_probe_counts by (auto; lia).
           split; [exact Hund|].
           exists (S c), pre. rewrite zp_update. cbn.
           repeat split; [lia | lia |].
           rewrite Hpre, <- app_assoc. f_equal.
           change (repeat true c ++ [true] = true :: repeat true c).
           now rewrite <- repeat_cons.
      * right. rewrite read_probe_inactive by auto.
        split; [exact Hund|].
        exists 0%nat, (map pin l ++ [false]). rewrite zp_update. cbn.
        repeat split; [lia|]. now rewrite app_nil_r.
Qed.

(** Enough active in-motion samples in a row confirm, from any count. *)
Lemma active_run_confirms (env : Env) (l : list TickInput) (w : World) :
  probing (zp w) = true -> probe_detected (zp w) = false ->
  0 <= debounce (zp w) <= debounce_ms (zp w) ->
  debounce_ms (zp w) < 2 ^ counter_bits env ->
  Forall (fun i => any_moving i = true /\ pin i = true) l ->
  debounce_ms (zp w) < debounce (zp w) + Z.of_nat (List.length l) ->
  probe_detected (zp (run_ticks env l w)) = true.
Proof.
  intros Hp Hd H0 Hbits Hall. revert w Hp Hd H0 Hbits.
  induction Hall as [|i l [Hm Hpin] Hl IH]; intros w Hp Hd H0 Hbits Hlen.
  - cbn in Hlen. lia.
  - change (run_ticks env (i :: l) w)
      with (run_ticks env l (read_probe env i w)).
    destruct (Z.lt_ge_cases (debounce (zp w)) (debounce_ms (zp w))) as [Hlt|Hge].
    + rewrite read_probe_counts by (auto; lia).
      apply IH; rewrite ?zp_update; cbn; auto; try lia.
      cbn [List.length] in Hlen. rewrite Nat2Z.inj_succ in Hlen. lia.
    + rewrite read_probe_confirms by auto.
      rewrite run_ticks_idle; [reflexivity|]. right. reflexivity.
Qed.

(** X4. For every threshold [t], an armed session that starts from a cleared
    counter and is sampled in motion is confirmed exactly when the pin has
    read active on [t + 1] consecutive samples somewhere in the sequence:
    shorter bursts of active readings, however many, never confirm. *)
Theorem trigger_iff_full_run_of_active_samples
  (env : Env) (t : nat) (l : list TickInput) (w : World) :
  probing (zp w) = true -> probe_detected (zp w) = false ->
  debounce (zp w) = 0 -> debounce_ms (zp w) = Z.of_nat t ->
  Z.of_nat t < 2 ^ counter_bits env ->
  Forall (fun i => any_moving i = true) l ->
  probe_detected (zp (run_ticks env l w)) = true <->
  exists l1 l2, map pin l = l1 ++ repeat true (S t) ++ l2.
Proof.
  intros Hp Hd H0 Ht Hbits Hall. split.
  - intro Hdet.
    destruct (debouncer_invariant env t l w Hp Hd H0 Ht Hbits Hall)
      as [[_ Hrun] | [Hund _]]; [exact Hrun | congruence].
  - intros (l1 & l2 & Hsplit).
    apply map_eq_app in Hsplit as (a & rest & -> & Ha & Hrest).
    apply map_eq_app in Hrest as (r & b & -> & Hr & Hb).
    apply Forall_app in Hall as [Hfa Hrest].
    apply Forall_app in Hrest as [Hfr Hfb].
    rewrite !run_ticks_concat.
    set (wa := run_ticks env a w).
    assert (Hpa : probing (zp wa) = true)
      by (unfold wa; now rewrite run_ticks_probing).
    destruct (debounce_stays_within_threshold env a w) as [Hrange Hms];
      [lia|]. fold wa in Hrange, Hms.
    assert (Hrdet : probe_detected (zp (run_ticks env r wa)) = true).
    { destruct (probe_detected (zp wa)) eqn:Hda.
      - rewrite run_ticks_idle by tauto. exact Hda.
      - apply active_run_confirms; auto; try lia.
        + clear - Hfr Hr. revert Hr Hfr. generalize (S t) as n.
          induction r as [|i r IH]; intros n Hr Hfr; [constructor|].
          destruct n as [|n]; [discriminate|].
          cbn in Hr. injection Hr as Hi Hr'.
          inversion Hfr as [|? ? H1 H2].
          constructor; [tauto | eapply IH; eauto].
        + rewrite <- (length_map pin), Hr, repeat_length. lia. }
    rewrite run_ticks_idle by tauto. exact Hrdet.
Qed.

Lemma trigger_iff_full_run_of_active_samples_witness :
  probe_detected
    (zp (run_ticks (machine false (fun _ => []))
           [z_moving_tick true; z_moving_tick false;
            z_moving_tick true; z_moving_tick true]
           (start (set_probing true (configured 1))))) = true <->
  exists l1 l2, [true; false; true; true] = l1 ++ repeat true 2 ++ l2.
Proof.
  apply (trigger_iff_full_run_of_active_samples
           (machine false (fun _ => [])) 1
           [z_moving_tick true; z_moving_tick false;
            z_moving_tick true; z_moving_tick true]
           (start (set_probing true (configured 1))));
    try reflexivity.
  repeat constructor.
Defined.

(** ** Operations on a disarmed session *)

Lemma post_call_disarmed (e : event) env w (Q : unit -> World -> Prop) :
  probing (zp w) = false ->
  (forall w', zp w' = zp w -> log w' = log w ++ [e] -> Q tt w') ->
  post (call e) env w Q.
Proof.
  intros Hd H. apply post_call. intros w' ->. apply H.
  - now apply tick_emit_disarmed.
  - rewrite tick_disarmed_log by (now rewrite zp_emit). apply log_emit.
Qed.

(** A call of the command domain made while the session is disarmed. *)
Ltac quiet_step :=
  cbn beta;
  lazymatch goal with
  | |- post (bind _ _) _ _ _ => apply post_bind; quiet_step
  | |- post (call _) _ ?w _ =>
      let w' := fresh "w" in
      let Hz := fresh "Hz" in
      let Hl := fresh "Hl" in
      apply post_call_disarmed;
      [ repeat match goal with
               | H : zp ?x = zp _ |- context [zp ?x] => rewrite H
               end; assumption
      | intros w' Hz Hl ]
  end;
  cbn beta.

Ltac quiet_unwind :=
  repeat match goal with
         | H : zp ?x = zp _ |- context [zp ?x] => rewrite H
         | H : log ?x = _ |- context [log ?x] => rewrite H
         end.

Ltac quiet_move :=
  intro Hd; repeat quiet_step; quiet_unwind;
  split; [reflexivity|];
  unfold move_calls; rewrite <- ?app_assoc; reflexivity.

Lemma move_x_disarmed (env : Env) (w : World) (x f : float) (rel : bool) :
  probing (zp w) = false ->
  post (move_x x f rel) env w (fun _ w' =>
    zp w' = zp w /\
    log w'
    = log w ++ move_calls rel [("X"%char, x); ("F"%char, mm_per_min f)] false).
Proof. unfold move_x. quiet_move. Qed.

Lemma move_z_disarmed (env : Env) (w : World) (z f : float) (rel : bool) :
  probing (zp w) = false ->
  post (move_z z f rel) env w (fun _ w' =>
    zp w' = zp w /\
    log w'
    = log w ++ move_calls rel [("Z"%char, z); ("F"%char, mm_per_min f)] true).
Proof. unfold move_z. quiet_move. Qed.

Lemma move_xy_disarmed (env : Env) (w : World) (x y f : float) (rel : bool) :
  probing (zp w) = false ->
  post (move_xy x y f rel) env w (fun _ w' =>
    zp w' = zp w /\
    log w'
    = log w
      ++ move_calls rel
           [("X"%char, x); ("Y"%char, y); ("F"%char, mm_per_min f)] true).
Proof. unfold move_xy. quiet_move. Qed.

(** [run_probe] ends disarmed when it starts disarmed, on either path. *)
Lemma run_probe_ends_disarmed (env : Env) (w : World) (mm f d : float)
  (rev : bool) :
  probing (zp w) = false ->
  post (run_probe mm f d rev) env w (fun res w' =>
    probing (zp w') = false /\
    config (zp w') = config (zp w) /\
    (fst res = true -> probe_detected (zp w') = true)).
Proof.
  intro Hd.
  eapply post_consequence; [apply run_probe_spec|].
  intros res w' (Hc & Habort & Hprobe).
  split; [|split; [exact Hc|]].
  - destruct (pin_get env (clock w)).
    + destruct Habort as [_ ->]; [reflexivity|]. now rewrite tick_probing.
    + now destruct Hprobe as [H _].
  - destruct (pin_get env (clock w)).
    + destruct Habort as [-> _]; [reflexivity|]. discriminate.
    + destruct Hprobe as (_ & Hres & _); [reflexivity|]. congruence.
Qed.

(** X5. The move that takes the probe back is not supervised.  From a
    disarmed session [run_probe_return] ends disarmed, and between the end of
    its inner [run_probe] and its return the log grows by the six calls of
    the move back and by nothing else: the sampler stops no actuator during
    that move, whatever the pin reads, and the object is as [run_probe] left
    it. *)
Theorem return_move_is_never_stopped
  (env : Env) (w : World) (mm feedrate max_dist : float) (reverse : bool) :
  probing (zp w) = false ->
  post (run_probe_return mm feedrate max_dist reverse) env w (fun res w' =>
    exists w2,
      run_probe mm feedrate max_dist reverse env (tick env w) = Done res w2 /\
      zp w' = zp w2 /\ probing (zp w') = false /\
      log w'
      = log w2
        ++ [PushState; SetAbsoluteMode true; SetNextCommandIsMCS true;
            Dispatch NullOs "G" 0
              [("Z"%char, get_axis_position env (clock w) Z_AXIS);
               ("F"%char,
                F32.mul (resolve_return_feedrate (zp w)) (F32.of_int 60))];
            WaitForIdle; PopState]).
Proof.
  intro Hd. unfold run_probe_return. step.
  assert (Hd0 : probing (zp w0) = false) by congruence.
  destruct (run_probe_ends_disarmed env w0 mm feedrate max_dist reverse Hd0)
    as (res & w2 & Hrun & Hd2 & Hc2 & _).
  apply post_bind. exists res, w2. split; [exact Hrun|].
  destruct res as [ok mm']. step.
  apply post_bind.
  eapply post_consequence; [apply (move_z_disarmed _ _ _ _ _ Hd2)|].
  intros [] w3 (Hz3 & Hl3). step.
  exists w2. subst w0. split; [exact Hrun|].
  split; [exact Hz3|]. split; [now rewrite Hz3|].
  rewrite Hl3. unfold move_calls, mm_per_min. cbn [app negb].
  now rewrite (resolve_return_feedrate_config (zp w2)), Hc2, Hc,
    <- resolve_return_feedrate_config.
Qed.

Lemma return_move_is_never_stopped_witness :
  post (run_probe_return F32.zero (F32.of_int 5) (F32.of_int 10) false)
    (machine false (fun _ => [z_moving_tick true]))
    (start (configured 0)) (fun res w' =>
    exists w2,
      run_probe F32.zero (F32.of_int 5) (F32.of_int 10) false
        (machine false (fun _ => [z_moving_tick true]))
        (tick (machine false (fun _ => [z_moving_tick true]))
           (start (configured 0)))
      = Done res w2 /\
      zp w' = zp w2 /\ probing (zp w') = false /\
      log w'
      = log w2
        ++ [PushState; SetAbsoluteMode true; SetNextCommandIsMCS true;
            Dispatch NullOs "G" 0
              [("Z"%char, F32.zero);
               ("F"%char,
                F32.mul (resolve_return_feedrate (configured 0))
                  (F32.of_int 60))];
            WaitForIdle; PopState]).
Proof.
  exact (return_move_is_never_stopped
           (machine false (fun _ => [z_moving_tick true]))
           (start (configured 0))
           F32.zero (F32.of_int 5) (F32.of_int 10) false eq_refl).
Defined.

(** ** The robot's state across an operation *)

Lemma state_depth_commands (l : list event) (d : nat) :
  state_depth (commands l) d = state_depth l d.
Proof.
  unfold state_depth, commands. revert d.
  induction l as [|e l IH]; intro d; [reflexivity|].
  cbn [filter]. destruct e; cbn [is_stop negb fold_left]; apply IH.
Qed.

Lemma segmentation_disabled_commands (l : list event) (b : bool) :
  segmentation_disabled (commands l) b = segmentation_disabled l b.
Proof.
  unfold segmentation_disabled, commands. revert b.
  induction l as [|e l IH]; intro b; [reflexivity|].
  cbn [filter]. destruct e; cbn [is_stop negb fold_left]; apply IH.
Qed.

Lemma state_depth_app (l1 l2 : list event) (d : nat) :
  state_depth (l1 ++ l2) d = state_depth l2 (state_depth l1 d).
Proof. apply fold_left_app. Qed.

Lemma segmentation_disabled_app (l1 l2 : list event) (b : bool) :
  segmentation_disabled (l1 ++ l2) b
  = segmentation_disabled l2 (segmentation_disabled l1 b).
Proof. apply fold_left_app. Qed.

Lemma state_depth_probe_calls z f d rev mm flag r n :
  state_depth (probe_calls z f d rev mm flag r) n = n.
Proof.
  unfold probe_calls, dwell_calls.
  destruct (F32.gtb (dwell_before_probing z) F32.lit_0_0001), r; reflexivity.
Qed.

Lemma segmentation_disabled_probe_calls z f d rev mm flag r b :
  segmentation_disabled (probe_calls z f d rev mm flag r) b = b.
Proof.
  unfold probe_calls, dwell_calls.
  destruct (F32.gtb (dwell_before_probing z) F32.lit_0_0001), r; reflexivity.
Qed.

(** X6. The straight probe and the probe-and-return leave the robot as they
    found it.  After [probe_XYZ], whichever axis it probed, whether or not the
    probe triggered and whether or not the alarm was raised, the robot's
    saved-state stack is as deep as before and segmentation is enabled; after
    [run_probe_return] the stack is as deep as before and the segmentation
    setting is the one it found. *)
Theorem operations_restore_the_robot_state (env : Env) (w : World) :
  (forall (gcode : GCode) (axis : nat),
     post (probe_XYZ gcode axis) env w (fun _ w' =>
       forall (d : nat) (b : bool),
         state_depth (log w') d = state_depth (log w) d /\
         segmentation_disabled (log w') b = false)) /\
  (forall (mm feedrate max_dist : float) (reverse : bool),
     post (run_probe_return mm feedrate max_dist reverse) env w (fun _ w' =>
       forall (d : nat) (b : bool),
         state_depth (log w') d = state_depth (log w) d /\
         segmentation_disabled (log w') b
         = segmentation_disabled (log w) b)).
Proof.
  split.
  - intros gcode axis.
    eapply post_consequence; [apply probe_XYZ_spec|].
    intros _ w' (_ & _ & k & Hlog) d b. cbn zeta in Hlog.
    rewrite <- (state_depth_commands (log w')),
      <- (segmentation_disabled_commands (log w')), Hlog.
    rewrite !state_depth_app, !segmentation_disabled_app,
      state_depth_commands.
    unfold report_calls.
    destruct ((if probe_detected (zp w') then 1 else 0) =? 0);
      destruct (get_subcode gcode =? 2);
      destruct axis as [|[|[|n]]]; split; reflexivity.
  - intros mm feedrate max_dist reverse.
    eapply post_consequence; [apply run_probe_return_spec|].
    intros res w' (w2 & Hrun & _ & Hlog) d b.
    destruct (run_probe_spec env (tick env w) mm feedrate max_dist reverse)
      as (res0 & w20 & Hrun0 & _ & Habort & Hprobe).
    rewrite Hrun0 in Hrun. injection Hrun as -> ->.
    assert (H2 : state_depth (commands (log w2)) d = state_depth (log w) d /\
                 segmentation_disabled (commands (log w2)) b
                 = segmentation_disabled (log w) b).
    { rewrite tick_clock in Habort, Hprobe.
      destruct (pin_get env (S (clock w))).
      - destruct Habort as [_ ->]; [reflexivity|].
        rewrite !tick_commands.
        now rewrite state_depth_commands, segmentation_disabled_commands.
      - destruct Hprobe as (_ & _ & flag & ->); [reflexivity|].
        rewrite tick_commands, state_depth_app, segmentation_disabled_app,
          state_depth_probe_calls, segmentation_disabled_probe_calls.
        now rewrite state_depth_commands, segmentation_disabled_commands. }
    destruct H2 as [Hd2 Hs2].
    rewrite <- (state_depth_commands (log w')),
      <- (segmentation_disabled_commands (log w')), Hlog.
    rewrite state_depth_app, segmentation_disabled_app, Hd2, Hs2.
    split; reflexivity.
Qed.

(** ** [handle_gcode]: the checks before a move *)

Lemma leveling_strategy_config (z : ZProbe) :
  leveling_strategy z = leveling_strategy (config z).
Proof. reflexivity. Qed.

Lemma calibration_strategy_config (z : ZProbe) :
  calibration_strategy z = calibration_strategy (config z).
Proof. reflexivity. Qed.

Lemma is_rdelta_config (z : ZProbe) : is_rdelta z = is_rdelta (config z).
Proof. reflexivity. Qed.

Lemma handle_gcode_29_to_32 (gcode : GCode) :
  29 <= get_code gcode <= 32 ->
  handle_gcode gcode
  = (triggered <- ask pin_get ;;
     if triggered then
       call (Printf "ZProbe triggered before move, aborting command.\n" []) ;;
       ret true
     else if get_code gcode =? 30 then handle_G30 gcode
     else handle_strategy_gcode gcode).
Proof.
  intro H. unfold handle_gcode.
  replace ((29 <=? get_code gcode) && (get_code gcode <=? 32)) with true;
    [reflexivity|].
  symmetry. apply andb_true_iff. split; apply Z.leb_le; lia.
Qed.

Lemma handle_gcode_38 (gcode : GCode) :
  get_code gcode = 38 -> handle_gcode gcode = handle_G38 gcode.
Proof. intro H. unfold handle_gcode. now rewrite H. Qed.

(** X7. A probing command that finds the pin active does nothing but say so.
    For G29 to G32, and for G38.2 and G38.3, when the pin reads active as the
    handler checks it, the handler returns true, prints the abort message (with
    the [error:] prefix for G38) and makes no other call: no wait, no move, no
    strategy is consulted (so none is dereferenced, present or not) and the
    session is neither armed nor disarmed.  On a disarmed session the object is
    left exactly as it was. *)
Theorem probe_commands_abort_on_an_active_pin
  (env : Env) (w : World) (gcode : GCode) :
  pin_get env (clock w) = true ->
  (29 <= get_code gcode <= 32) \/
  (get_code gcode = 38 /\ (get_subcode gcode = 2 \/ get_subcode gcode = 3)) ->
  post (handle_gcode gcode) env w (fun r w' =>
    r = true /\
    config (zp w') = config (zp w) /\
    probing (zp w') = probing (zp w) /\
    (probing (zp w) = false -> zp w' = zp w) /\
    commands (log w')
    = commands (log w)
      ++ [Printf (if get_code gcode =? 38
                  then "error:ZProbe triggered before move, aborting command.\n"
                  else "ZProbe triggered before move, aborting command.\n")
            []]).
Proof.
  intros Hpin Hcode.
  destruct Hcode as [Hr | [H38 Hsub]].
  - rewrite (handle_gcode_29_to_32 _ Hr).
    assert (E38 : (get_code gcode =? 38) = false) by (apply Z.eqb_neq; lia).
    rewrite E38. step. rewrite Hpin. do 2 step.
    unwind. repeat split; try reflexivity.
    intro Hd. subst w1 w0.
    rewrite tick_emit_disarmed by (now rewrite tick_probing).
    now apply tick_disarmed_zp.
  - rewrite (handle_gcode_38 _ H38), H38. unfold handle_G38.
    assert (E : negb (get_subcode gcode =? 2) && negb (get_subcode gcode =? 3)
                = false)
      by (destruct Hsub as [-> | ->]; reflexivity).
    rewrite E. cbv iota. step. rewrite Hpin. do 2 step.
    unwind. repeat split; try reflexivity.
    intro Hd. subst w1 w0.
    rewrite tick_emit_disarmed by (now rewrite tick_probing).
    now apply tick_disarmed_zp.
Qed.

Lemma probe_commands_abort_on_an_active_pin_witness :
  post (handle_gcode G29) (machine true (fun _ => [z_moving_tick true]))
    (start (configured 0)) (fun r w' =>
    r = true /\
    config (zp w') = config (configured 0) /\
    probing (zp w') = false /\
    (false = false -> zp w' = configured 0) /\
    commands (log w')
    = [Printf "ZProbe triggered before move, aborting command.\n" []]).
Proof.
  apply (probe_commands_abort_on_an_active_pin
           (machine true (fun _ => [z_moving_tick true]))
           (start (configured 0)) G29).
  - reflexivity.
  - left. cbn. lia.
Defined.

(** ** [handle_gcode]: the straight probe *)

Lemma moves_app (l1 l2 : list event) : moves (l1 ++ l2) = moves l1 ++ moves l2.
Proof. apply filter_app. Qed.

Lemma moves_axis_move_calls gcode z axis :
  moves (axis_move_calls gcode z axis)
  = match axis with
    | 0%nat => [Dispatch NullOs "G" 0
                  [("X"%char, get_arg gcode "X");
                   ("F"%char, mm_per_min (probe_rate gcode z))]]
    | 1%nat => [Dispatch NullOs "G" 0
                  [("Y"%char, get_arg gcode "Y");
                   ("F"%char, mm_per_min (probe_rate gcode z))]]
    | 2%nat => [Dispatch NullOs "G" 0
                  [("Z"%char, get_arg gcode "Z");
                   ("F"%char, mm_per_min (probe_rate gcode z))]]
    | _ => []
    end.
Proof. destruct axis as [|[|[|n]]]; reflexivity. Qed.

Lemma moves_report_calls px py pz flag subcode :
  moves (report_calls px py pz flag subcode) = [].
Proof.
  unfold report_calls.
  destruct ((flag =? 0) && (subcode =? 2)); reflexivity.
Qed.

(** The moves of a straight probe along [axis] that starts after a wait. *)
Lemma probe_along_axis_moves (env : Env) (w w1 : World) (gcode : GCode)
  (axis : nat) :
  config (zp w1) = config (zp w) ->
  commands (log w1) = commands (log w) ++ [WaitForIdle] ->
  post (probe_XYZ gcode axis ;; ret true) env w1 (fun r w' =>
    r = true /\ probing (zp w') = false /\
    moves (log w')
    = moves (log w) ++ moves (axis_move_calls gcode (zp w) axis)).
Proof.
  intros Hc1 Hl1. apply post_bind.
  eapply post_consequence; [apply probe_XYZ_spec|].
  intros _ w' (_ & Hp & k & Hlog). cbn zeta in Hlog. step.
  split; [reflexivity|]. split; [exact Hp|].
  rewrite <- (moves_commands (log w')), Hlog, Hl1.
  rewrite !moves_app, moves_commands, moves_report_calls.
  rewrite !moves_axis_move_calls.
  rewrite (probe_rate_config gcode (zp w1)), Hc1, <- probe_rate_config.
  cbn [moves filter is_move app]. now rewrite !app_nil_r.
Qed.

(** X8. A straight probe moves one axis.  For G38.2 and G38.3 with the pin
    inactive, the handler returns true and dispatches exactly one move: along
    X when the command has an X word, else along Y when it has a Y word, else
    along Z when it has a Z word, to that word's value at the command's
    feedrate; the words of the other axes are ignored, and the session ends
    disarmed.  With none of the three words it waits for the queue, prints
    the error, makes no other call and leaves the arming as it was, and it
    still returns true. *)
Theorem straight_probe_moves_one_axis
  (env : Env) (w : World) (gcode : GCode) :
  get_code gcode = 38 ->
  get_subcode gcode = 2 \/ get_subcode gcode = 3 ->
  pin_get env (clock w) = false ->
  post (handle_gcode gcode) env w (fun r w' =>
    r = true /\
    let word := if has_arg gcode "X" then Some "X"%char
                else if has_arg gcode "Y" then Some "Y"%char
                else if has_arg gcode "Z" then Some "Z"%char
                else None in
    match word with
    | Some c =>
        probing (zp w') = false /\
        moves (log w')
        = moves (log w)
          ++ [Dispatch NullOs "G" 0
                [(c, get_arg gcode c);
                 ("F"%char, mm_per_min (probe_rate gcode (zp w)))]]
    | None =>
        probing (zp w') = probing (zp w) /\
        commands (log w')
        = commands (log w)
          ++ [WaitForIdle;
              Printf "error:at least one of X Y or Z must be specified\n" []]
    end).
Proof.
  intros H38 Hsub Hpin.
  rewrite (handle_gcode_38 _ H38). unfold handle_G38.
  assert (E : negb (get_subcode gcode =? 2) && negb (get_subcode gcode =? 3)
              = false)
    by (destruct Hsub as [-> | ->]; reflexivity).
  rewrite E. step. rewrite Hpin. step.
  destruct (has_arg gcode "X");
    [|destruct (has_arg gcode "Y"); [|destruct (has_arg gcode "Z")]].
  - eapply post_consequence; [apply (probe_along_axis_moves env w); assumption|].
    intros r w' (Er & Ep & Em). rewrite moves_axis_move_calls in Em. auto.
  - eapply post_consequence; [apply (probe_along_axis_moves env w); assumption|].
    intros r w' (Er & Ep & Em). rewrite moves_axis_move_calls in Em. auto.
  - eapply post_consequence; [apply (probe_along_axis_moves env w); assumption|].
    intros r w' (Er & Ep & Em). rewrite moves_axis_move_calls in Em. auto.
  - do 2 step. unwind. split; [reflexivity|]. split; [reflexivity|].
    now rewrite <- app_assoc.
Qed.

Lemma straight_probe_moves_one_axis_witness :
  post (handle_gcode
          (gcode_of 38 2 [("Z"%char, F32.of_int (-10));
                          ("Y"%char, F32.of_int 4)]))
    (machine false (fun _ => [])) (start (configured 0)) (fun r w' =>
    r = true /\
    probing (zp w') = false /\
    moves (log w')
    = [Dispatch NullOs "G" 0
         [("Y"%char, F32.of_int 4);
          ("F"%char, mm_per_min (F32.of_int 5))]]).
Proof.
  apply (straight_probe_moves_one_axis (machine false (fun _ => []))
           (start (configured 0))
           (gcode_of 38 2 [("Z"%char, F32.of_int (-10));
                           ("Y"%char, F32.of_int 4)])).
  - reflexivity.
  - left. reflexivity.
  - reflexivity.
Defined.

(** ** [handle_gcode]: the simple probe *)

Lemma probe_calls_config z f d rev mm flag r :
  probe_calls z f d rev mm flag r = probe_calls (config z) f d rev mm flag r.
Proof. reflexivity. Qed.

Lemma sampled_detected (env : Env) (l : list TickInput) (z : ZProbe) :
  probe_detected z = true -> sampled env l z = z.
Proof. intro H. unfold sampled. now rewrite run_ticks_idle by (now right). Qed.

(** A trigger found when the last probe position is recorded is still there
    once the session is disarmed. *)
Lemma detected_stays (env : Env) (e : event) (wa wb wc : World) :
  wb = tick env (emit e wa) ->
  wc = tick env (update (set_probing false) wb) ->
  probe_detected (zp wa) = true -> probe_detected (zp wc) = true.
Proof.
  intros -> -> H.
  rewrite tick_zp, zp_update, sampled_disarmed by reflexivity.
  cbn [probe_detected set_probing].
  rewrite tick_zp, zp_emit, sampled_detected by exact H.
  exact H.
Qed.

(** The end of [run_probe], from the statement after disarming on, with the
    recorded flag kept in sight. *)
Ltac finish_measure :=
  match goal with
  | Ha : ?wb = tick ?env (emit (SetLastProbePosition _ _ _ ?fl) ?wa),
    Hb : ?wc = tick ?env (update (set_probing false) ?wb) |- _ =>
      let Hmono := fresh "Hmono" in
      let E := fresh "Edet" in
      let Ea := fresh "Eflag" in
      pose proof (detected_stays env _ wa wb wc Ha Hb) as Hmono;
      step;
      destruct (probe_detected (zp wc)) eqn:E; [do 4 step | do 3 step];
      unwind; rewrite ?E; cbn [fst snd];
      (split; [reflexivity|]);
      (split; [reflexivity|]);
      (split; [reflexivity|]);
      (split; [reflexivity|]);
      exists fl;
      (split; [destruct (probe_detected (zp wa)); auto|]);
      (split;
       [ destruct (probe_detected (zp wa)) eqn:Ea;
         [ intros _; first [reflexivity | discriminate (Hmono eq_refl)]
         | discriminate ]
       | frame probe_delta_config;
         rewrite <- ?app_assoc; cbn [app]; reflexivity ])
  end.

(** A [run_probe] that gets past the pin check: the distance it measures,
    the flag it records and the flag it answers. *)
Lemma run_probe_measures (env : Env) (w : World) (mm f d : float) (rev : bool) :
  pin_get env (clock w) = false ->
  post (run_probe mm f d rev) env w (fun res w' =>
    snd res
    = F32.sub (get_current_position env (4 + clock w) Z_AXIS)
        (get_current_position env
           (7 + List.length (dwell_calls (zp w)) + clock w) 2) /\
    fst res = probe_detected (zp w') /\
    probing (zp w') = false /\
    config (zp w') = config (zp w) /\
    exists flag,
      (flag = 0 \/ flag = 1) /\ (flag = 1 -> fst res = true) /\
      commands (log w')
      = commands (log w) ++ probe_calls (zp w) f d rev (snd res) flag (fst res)).
Proof.
  intro Hpin. unfold run_probe. step. rewrite Hpin.
  step. unfold run_probe_arm. do 5 step.
  frame dwell_config. frame probe_distance_config.
  unfold probe_calls, dwell_calls.
  destruct (F32.gtb (dwell_before_probing (zp w)) F32.lit_0_0001).
  - do 9 step. finish_measure.
  - do 8 step. finish_measure.
Qed.

Lemma dwell_calls_config (z : ZProbe) : dwell_calls z = dwell_calls (config z).
Proof. reflexivity. Qed.

Lemma commands_move_calls rel args wait :
  commands (move_calls rel args wait) = move_calls rel args wait.
Proof. destruct wait; reflexivity. Qed.

(** [run_probe_return] on a disarmed session: the object is as the inner
    [run_probe] leaves it, and the log grows by the calls of the move back. *)
Lemma run_probe_return_disarmed (env : Env) (w : World) (mm f d : float)
  (rev : bool) :
  probing (zp w) = false ->
  post (run_probe_return mm f d rev) env w (fun res w' =>
    exists w2,
      run_probe mm f d rev env (tick env w) = Done res w2 /\
      zp w' = zp w2 /\
      log w'
      = log w2
        ++ move_calls false
             [("Z"%char, get_axis_position env (clock w) Z_AXIS);
              ("F"%char, mm_per_min (resolve_return_feedrate (zp w)))]
             true).
Proof.
  intro Hd. unfold run_probe_return. step.
  assert (Hd0 : probing (zp w0) = false) by congruence.
  destruct (run_probe_ends_disarmed env w0 mm f d rev Hd0)
    as (res & w2 & Hrun & Hd2 & Hc2 & _).
  apply post_bind. exists res, w2. split; [exact Hrun|].
  destruct res as [ok mm']. step.
  apply post_bind.
  eapply post_consequence; [apply (move_z_disarmed _ _ _ _ _ Hd2)|].
  intros [] w3 (Hz3 & Hl3). step.
  exists w2. subst w0. split; [exact Hrun|].
  split; [exact Hz3|].
  rewrite Hl3.
  now rewrite (resolve_return_feedrate_config (zp w2)), Hc2, Hc,
    <- resolve_return_feedrate_config.
Qed.

(** The end of [handle_G30], after the probe, on a disarmed session: the
    result line and, when asked for and possible, the [G92] that sets Z. *)
Lemma report_after_probe (env : Env) (w2 : World) (gcode : GCode)
  (set_z ok : bool) (mm : float) :
  probing (zp w2) = false ->
  post ((if ok then
           call (Printf "Z:%1.4f\n" [PFloat mm]) ;;
           when set_z
             (call (Dispatch Os "G" 92 [("Z"%char, get_arg gcode "Z")]))
         else
           call (Printf "ZProbe not triggered\n" [])) ;;
        ret true) env w2 (fun r w' =>
    r = true /\
    zp w' = zp w2 /\
    commands (log w')
    = commands (log w2)
      ++ [if ok then Printf "Z:%1.4f\n" [PFloat mm]
          else Printf "ZProbe not triggered\n" []]
      ++ (if ok && set_z
          then [Dispatch Os "G" 92 [("Z"%char, get_arg gcode "Z")]]
          else [])).
Proof.
  intro Hd.
  destruct ok, set_z; cbn [andb when]; repeat step; unwind;
    rewrite <- ?app_assoc; repeat split; reflexivity.
Qed.

(** X9. What G30 does once the pin has been found inactive, on a disarmed
    session.  It waits for the queue and probes along Z at the command's
    feedrate over the default distance (in reverse when the R word is present
    and not zero); the command ends disarmed, and the probe has triggered
    exactly when [probe_detected] is set at the end.  It prints one line:
    [Z:] with the distance measured, the Z actuator position read before
    the probing move minus the one read after it, when the probe triggered,
    and [ZProbe not triggered] otherwise; it returns true in both cases.
    With a Z word on a machine that is not a rotary delta the probe stays
    where it stopped and, only when it triggered, [G92 Z<word>] is
    dispatched on the caller's stream; otherwise the probe is taken back to
    the height it started from before the line is printed, and nothing is
    dispatched on the caller's stream.  The pin is read again where the
    probe starts, two statements later (three with the move back): when it
    reads active there nothing is probed and the command reports
    [ZProbe not triggered].  The flag recorded with the last probe position
    is read one scheduling point before the session is disarmed: it is 0 or
    1, and 1 only when the probe triggered. *)
Theorem simple_probe_reports_and_sets_z
  (env : Env) (w : World) (gcode : GCode) :
  get_code gcode = 30 ->
  pin_get env (clock w) = false ->
  probing (zp w) = false ->
  let set_z := has_arg gcode "Z" && negb (is_rdelta (zp w)) in
  let reverse := has_arg gcode "R" && F32.neb (get_arg gcode "R") F32.zero in
  let entry := S (S (if set_z then clock w else S (clock w))) in
  let mm :=
    F32.sub (get_current_position env (4 + entry) Z_AXIS)
      (get_current_position env
         (7 + List.length (dwell_calls (zp w)) + entry) 2) in
  post (handle_gcode gcode) env w (fun r w' =>
    r = true /\
    probing (zp w') = false /\
    let triggered := negb (pin_get env entry) && probe_detected (zp w') in
    exists flag : Z,
      (flag = 0 \/ flag = 1) /\
      (flag = 1 -> triggered = true) /\
      commands (log w')
      = commands (log w)
        ++ [WaitForIdle]
        ++ (if pin_get env entry then []
            else probe_calls (zp w) (probe_rate gcode (zp w))
                   (F32.of_int (-1)) reverse mm flag triggered)
        ++ (if set_z then []
            else move_calls false
                   [("Z"%char, get_axis_position env (S (S (clock w))) Z_AXIS);
                    ("F"%char, mm_per_min (resolve_return_feedrate (zp w)))]
                   true)
        ++ [if triggered then Printf "Z:%1.4f\n" [PFloat mm]
            else Printf "ZProbe not triggered\n" []]
        ++ (if triggered && set_z
            then [Dispatch Os "G" 92 [("Z"%char, get_arg gcode "Z")]]
            else [])).
Proof.
  intros H30 Hpin Hdis set_z reverse entry mm.
  rewrite handle_gcode_29_to_32 by lia.
  rewrite H30, Z.eqb_refl. step. rewrite Hpin.
  unfold handle_G30. do 3 step.
  frame is_rdelta_config. frame (probe_rate_config gcode).
  fold set_z. fold reverse.
  apply post_bind. exists (indeterminate env), w1. split; [reflexivity|].
  apply post_bind.
  assert (Hd1 : probing (zp w1) = false) by congruence.
  assert (Hprobe : forall u,
    config (zp u) = config (zp w) -> probing (zp u) = false ->
    post (run_probe (indeterminate env) (probe_rate gcode (zp w))
            (F32.of_int (-1)) reverse) env u (fun res w2 =>
      config (zp w2) = config (zp w) /\
      probing (zp w2) = false /\
      fst res = negb (pin_get env (clock u)) && probe_detected (zp w2) /\
      (pin_get env (clock u) = false ->
       snd res
       = F32.sub (get_current_position env (4 + clock u) Z_AXIS)
           (get_current_position env
              (7 + List.length (dwell_calls (zp w)) + clock u) 2)) /\
      exists flag,
        (flag = 0 \/ flag = 1) /\ (flag = 1 -> fst res = true) /\
        commands (log w2)
        = commands (log u)
          ++ (if pin_get env (clock u) then []
              else probe_calls (zp w) (probe_rate gcode (zp w))
                     (F32.of_int (-1)) reverse (snd res) flag (fst res)))).
  { intros u Hu Hdu.
    destruct (pin_get env (clock u)) eqn:Epin.
    - eapply post_consequence; [apply run_probe_spec|].
      intros res w2 (Hc2 & Habort & _).
      destruct Habort as [-> ->]; [exact Epin|].
      rewrite tick_probing, tick_commands, app_nil_r.
      repeat split; try congruence.
      exists 0. repeat split; [now left | discriminate].
    - eapply post_consequence; [apply (run_probe_measures _ _ _ _ _ _ Epin)|].
      intros res w2 (Hmm & Hres & Hp2 & Hc2 & flag & Hf & Hft & Hlog).
      split; [congruence|]. split; [exact Hp2|]. split; [exact Hres|].
      split.
      + intros _. now rewrite Hmm, dwell_calls_config, Hu, <- dwell_calls_config.
      + exists flag. split; [exact Hf|]. split; [exact Hft|].
        now rewrite Hlog, probe_calls_config, Hu, <- probe_calls_config. }
  clearbody set_z reverse. subst entry mm.
  destruct set_z.
  - eapply post_consequence; [apply (Hprobe w1 Hc0 Hd1)|].
    intros [ok mm'] w2 (Hc2 & Hp2 & Hok & Hmm & flag & Hf & Hft & Hl2).
    cbn [fst snd] in Hok, Hmm, Hft, Hl2.
    eapply post_consequence; [apply (report_after_probe _ _ _ _ _ _ Hp2)|].
    intros r w' (Er & Ez & El). split; [exact Er|].
    rewrite Ez. split; [exact Hp2|].
    rewrite Hk0 in Hok, Hmm, Hl2. cbn zeta. rewrite <- Hok.
    exists flag. split; [exact Hf|]. split; [exact Hft|].
    rewrite El, Hl2, Hl0, <- !app_assoc.
    destruct (pin_get env (S (S (clock w)))) eqn:Epin.
    + cbn [negb andb] in Hok. subst ok. reflexivity.
    + rewrite <- (Hmm eq_refl). reflexivity.
  - eapply post_consequence; [apply (run_probe_return_disarmed _ _ _ _ _ _ Hd1)|].
    intros [ok mm'] w3 (w2 & Hrun & Hz3 & Hl3).
    destruct (Hprobe (tick env w1))
      as (res & w2' & Hrun' & Hc2 & Hp2 & Hok & Hmm & flag & Hf & Hft & Hl2);
      [now rewrite tick_config | now rewrite tick_probing |].
    rewrite Hrun' in Hrun. injection Hrun as Eres Ew. subst res w2'.
    cbn [fst snd] in Hok, Hmm, Hft, Hl2.
    rewrite tick_clock, Hk0 in Hok, Hmm, Hl2. rewrite tick_commands, Hl0 in Hl2.
    assert (Hp3 : probing (zp w3) = false) by (now rewrite Hz3).
    eapply post_consequence; [apply (report_after_probe _ _ _ _ _ _ Hp3)|].
    intros r w' (Er & Ez & El). split; [exact Er|].
    rewrite Ez, Hz3. split; [exact Hp2|].
    cbn zeta. rewrite <- Hok.
    exists flag. split; [exact Hf|]. split; [exact Hft|].
    rewrite El, Hl3, commands_app, commands_move_calls, Hl2, Hk0.
    rewrite (resolve_return_feedrate_config (zp w1)), Hc0,
      <- resolve_return_feedrate_config.
    rewrite andb_false_r, <- !app_assoc.
    destruct (pin_get env (S (S (S (clock w))))) eqn:Epin.
    + cbn [negb andb] in Hok. subst ok. reflexivity.
    + rewrite <- (Hmm eq_refl). reflexivity.
Qed.

Lemma simple_probe_reports_and_sets_z_witness :
  post (handle_gcode (gcode_of 30 0 [("Z"%char, F32.of_int 2)]))
    (machine false one_active_sample)
    (start (configured 0)) (fun r w' =>
    r = true /\
    probing (zp w') = false /\
    exists flag : Z,
      (flag = 0 \/ flag = 1) /\
      (flag = 1 -> probe_detected (zp w') = true) /\
      commands (log w')
      = [WaitForIdle]
        ++ probe_calls (configured 0) (F32.of_int 5) (F32.of_int (-1)) false
             (F32.sub F32.zero F32.zero) flag (probe_detected (zp w'))
        ++ [if probe_detected (zp w')
            then Printf "Z:%1.4f\n" [PFloat (F32.sub F32.zero F32.zero)]
            else Printf "ZProbe not triggered\n" []]
        ++ (if probe_detected (zp w') && true
            then [Dispatch Os "G" 92 [("Z"%char, F32.of_int 2)]]
            else [])).
Proof.
  apply (simple_probe_reports_and_sets_z
           (machine false one_active_sample)
           (start (configured 0))
           (gcode_of 30 0 [("Z"%char, F32.of_int 2)])).
  - reflexivity.
  - reflexivity.
  - reflexivity.
Defined.

(** ** [handle_gcode]: the strategies *)

Lemma handle_gcode_strategy (gcode : GCode) :
  29 <= get_code gcode <= 32 -> get_code gcode <> 30 ->
  handle_gcode gcode
  = (triggered <- ask pin_get ;;
     if triggered then
       call (Printf "ZProbe triggered before move, aborting command.\n" []) ;;
       ret true
     else handle_strategy_gcode gcode).
Proof.
  intros H Hn. rewrite handle_gcode_29_to_32 by exact H.
  now replace (get_code gcode =? 30) with false
    by (symmetry; apply Z.eqb_neq; exact Hn).
Qed.

(** One strategy consulted, and the message [msg] when it declines. *)
Lemma consult_one (env : Env) (w0 : World) (st : strategy) (msg : event) :
  is_stop msg = false ->
  post (handled <- handleGCode (Some st) ;;
        if handled then ret true else call msg ;; ret false) env w0
    (fun r w' =>
       r = strategy_handles env (clock w0) st /\
       config (zp w') = config (zp w0) /\
       probing (zp w') = probing (zp w0) /\
       commands (log w')
       = commands (log w0) ++ [HandleGCode st] ++ (if r then [] else [msg])).
Proof.
  intro Hmsg.
  apply post_bind, post_handleGCode. intros w1 Hw1. facts Hw1.
  destruct (strategy_handles env (clock w0) st).
  - step. unwind. repeat split; try reflexivity.
  - apply post_bind, post_call. intros w2 Hw2.
    pose proof (f_equal (fun x => commands (log x)) Hw2) as Hl2.
    pose proof (f_equal (fun x => config (zp x)) Hw2) as Hc2.
    pose proof (f_equal (fun x => probing (zp x)) Hw2) as Hp2.
    cbn beta in Hl2, Hc2, Hp2.
    autorewrite with world in Hl2, Hc2, Hp2.
    rewrite commands_snoc in Hl2 by exact Hmsg.
    step. rewrite Hl2, Hc2, Hp2. unwind.
    rewrite <- app_assoc. repeat split; reflexivity.
Qed.

Lemma to_uint16_defined (x : float) :
  uint16_defined x = true -> F32.to_uint16 x = truncate x.
Proof.
  destruct x as [s| | |s m e]; try discriminate; [reflexivity|].
  unfold uint16_defined, F32.to_uint16, truncate.
  intro H. apply andb_true_iff in H. destruct H as [Hlo Hhi].
  apply Z.leb_le in Hlo. apply Z.ltb_lt in Hhi.
  apply Z.mod_small. lia.
Qed.

(** X10. The P word selects the one strategy a G29, G31 or G32 is sent to.
    With the pin inactive and a P word whose value converts to [uint16_t],
    that is, whose integer part [i] lies between 0 and 65535: for [i = 0]
    only the leveling strategy is consulted and for [i = 1] only the
    calibration strategy, the other one being neither consulted nor required
    to exist; the handler returns what the consulted strategy answers, and
    when that declines it prints [strategy #i did not handle G<code>].  For
    any other [i] in that range it prints [Only P0 ad P1 supported] and
    returns false without consulting a strategy, whether or not any is
    configured.  Outside that range C leaves the conversion undefined, and
    nothing is stated. *)
Theorem strategy_word_selects_one_strategy
  (env : Env) (w : World) (gcode : GCode) :
  29 <= get_code gcode <= 32 -> get_code gcode <> 30 ->
  pin_get env (clock w) = false ->
  has_arg gcode "P" = true ->
  uint16_defined (get_arg gcode "P") = true ->
  let i := truncate (get_arg gcode "P") in
  (forall st : strategy,
     i = 0 /\ leveling_strategy (zp w) = Some st \/
     i = 1 /\ calibration_strategy (zp w) = Some st ->
     post (handle_gcode gcode) env w (fun r w' =>
       r = strategy_handles env (S (clock w)) st /\
       probing (zp w') = probing (zp w) /\
       commands (log w')
       = commands (log w)
         ++ [HandleGCode st]
         ++ (if r then []
             else [Printf "strategy #%d did not handle G%d\n"
                     [PInt i; PInt (get_code gcode)]]))) /\
  (i <> 0 -> i <> 1 ->
   post (handle_gcode gcode) env w (fun r w' =>
     r = false /\
     probing (zp w') = probing (zp w) /\
     commands (log w')
     = commands (log w) ++ [Printf "Only P0 ad P1 supported\n" []])).
Proof.
  intros Hr Hn Hpin HP Hdef i.
  rewrite (handle_gcode_strategy _ Hr Hn).
  split.
  - intros st Hsel. step. rewrite Hpin.
    unfold handle_strategy_gcode. do 2 step. rewrite HP. cbn [negb].
    rewrite (to_uint16_defined _ Hdef). fold i.
    rewrite (leveling_strategy_config (zp w0)),
      (calibration_strategy_config (zp w0)), Hc,
      <- leveling_strategy_config, <- calibration_strategy_config.
    destruct Hsel as [[Hi Hst] | [Hi Hst]]; rewrite Hi, Hst;
      cbn [Z.eqb Pos.eqb];
      (eapply post_consequence; [apply consult_one; reflexivity|]);
      intros r w' (Er & _ & Ep & El);
      rewrite Hk in Er; rewrite El, Ep; unwind; auto.
  - intros H0 H1. step. rewrite Hpin.
    unfold handle_strategy_gcode. do 2 step. rewrite HP. cbn [negb].
    rewrite (to_uint16_defined _ Hdef). fold i.
    replace (i =? 0) with false by (symmetry; now apply Z.eqb_neq).
    replace (i =? 1) with false by (symmetry; now apply Z.eqb_neq).
    do 2 step. unwind. repeat split; reflexivity.
Qed.

Lemma strategy_word_selects_one_strategy_witness :
  post (handle_gcode (gcode_of 32 0 [("P"%char, F32.of_int 1)]))
    (machine false (fun _ => []))
    (start (set_calibration_strategy (Some DeltaCalibrationStrategy)
              (configured 0)))
    (fun r w' =>
       r = false /\
       probing (zp w') = false /\
       commands (log w')
       = [HandleGCode DeltaCalibrationStrategy]
         ++ (if r then []
             else [Printf "strategy #%d did not handle G%d\n"
                     [PInt 1; PInt 32]])).
Proof.
  apply (strategy_word_selects_one_strategy (machine false (fun _ => []))
           (start (set_calibration_strategy (Some DeltaCalibrationStrategy)
                     (configured 0)))
           (gcode_of 32 0 [("P"%char, F32.of_int 1)])).
  - cbn. lia.
  - discriminate.
  - reflexivity.
  - reflexivity.
  - reflexivity.
  - right. split; reflexivity.
Defined.

(** X11. Without a P word the first willing strategy handles a G29, G31 or
    G32.  With the pin inactive and a leveling strategy configured, the
    leveling strategy is consulted first; when it accepts, the handler
    returns true and the calibration strategy is neither consulted nor
    required to exist.  When it declines and a calibration strategy is
    configured, that one is consulted next and the handler returns its
    answer, printing [No strategy found to handle G<code>] when it declines
    too. *)
Theorem first_willing_strategy_handles
  (env : Env) (w : World) (gcode : GCode) (a : strategy) :
  29 <= get_code gcode <= 32 -> get_code gcode <> 30 ->
  pin_get env (clock w) = false ->
  has_arg gcode "P" = false ->
  leveling_strategy (zp w) = Some a ->
  (strategy_handles env (S (clock w)) a = true ->
   post (handle_gcode gcode) env w (fun r w' =>
     r = true /\
     commands (log w') = commands (log w) ++ [HandleGCode a])) /\
  (forall b : strategy,
     strategy_handles env (S (clock w)) a = false ->
     calibration_strategy (zp w) = Some b ->
     post (handle_gcode gcode) env w (fun r w' =>
       r = strategy_handles env (S (S (clock w))) b /\
       commands (log w')
       = commands (log w)
         ++ [HandleGCode a; HandleGCode b]
         ++ (if r then []
             else [Printf "No strategy found to handle G%d\n"
                     [PInt (get_code gcode)]]))).
Proof.
  intros Hr Hn Hpin HP Ha.
  rewrite (handle_gcode_strategy _ Hr Hn).
  split.
  - intro Hyes. step. rewrite Hpin.
    unfold handle_strategy_gcode. do 2 step. rewrite HP. cbn [negb].
    rewrite (leveling_strategy_config (zp w0)), Hc,
      <- leveling_strategy_config, Ha.
    apply post_bind, post_handleGCode. intros w1 Hw1. facts Hw1.
    rewrite Hk, Hyes. step. unwind. split; reflexivity.
  - intros b Hno Hb. step. rewrite Hpin.
    unfold handle_strategy_gcode. do 2 step. rewrite HP. cbn [negb].
    rewrite (leveling_strategy_config (zp w0)),
      (calibration_strategy_config (zp w0)), Hc,
      <- leveling_strategy_config, <- calibration_strategy_config, Ha, Hb.
    apply post_bind, post_handleGCode. intros w1 Hw1. facts Hw1.
    rewrite Hk, Hno.
    eapply post_consequence; [apply consult_one; reflexivity|].
    intros r w' (Er & _ & _ & El).
    rewrite Hk0 in Er. rewrite El. unwind.
    split; [exact Er|]. now rewrite <- app_assoc.
Qed.

Lemma first_willing_strategy_handles_witness :
  post (handle_gcode G29)
    {| n_actuators := 3; counter_bits := 16;
       pin_get := fun _ => false; sampler_ticks := fun _ => [];
       get_current_position := fun _ _ => F32.zero;
       get_axis_position := fun _ _ => F32.zero;
       strategy_handles := fun _ _ => true;
       indeterminate := F32.zero |}
    (start (set_leveling_strategy (Some ThreePointStrategy) (configured 0)))
    (fun r w' =>
       r = true /\ commands (log w') = [HandleGCode ThreePointStrategy]).
Proof.
  apply (first_willing_strategy_handles
           {| n_actuators := 3; counter_bits := 16;
              pin_get := fun _ => false; sampler_ticks := fun _ => [];
              get_current_position := fun _ _ => F32.zero;
              get_axis_position := fun _ _ => F32.zero;
              strategy_handles := fun _ _ => true;
              indeterminate := F32.zero |}
           (start (set_leveling_strategy (Some ThreePointStrategy)
                     (configured 0)))
           G29 ThreePointStrategy).
  - cbn. lia.
  - discriminate.
  - reflexivity.
  - reflexivity.
  - reflexivity.
  - reflexivity.
Defined.

(** ** [handle_mcode] *)

(** The object after [M670], field by field. *)
Lemma handle_M670_object (gcode : GCode) (inv : bool) (z : ZProbe) :
  fst (handle_M670 gcode inv z)
  = {| probing := probing z;
       probe_detected := probe_detected z;
       debounce := debounce z;
       debounce_ms := debounce_ms z;
       invert_override :=
         if has_arg gcode "I" then F32.neb (get_arg gcode "I") F32.zero
         else invert_override z;
       reverse_z := reverse_z z;
       is_rdelta := is_rdelta z;
       max_z := if has_arg gcode "Z" then get_arg gcode "Z" else max_z z;
       slow_feedrate :=
         if has_arg gcode "S" then get_arg gcode "S" else slow_feedrate z;
       fast_feedrate :=
         if has_arg gcode "K" then get_arg gcode "K" else fast_feedrate z;
       return_feedrate :=
         if has_arg gcode "R" then get_arg gcode "R" else return_feedrate z;
       probe_height :=
         if has_arg gcode "H" then get_arg gcode "H" else probe_height z;
       dwell_before_probing :=
         if has_arg gcode "D" then get_arg gcode "D"
         else dwell_before_probing z;
       leveling_strategy := leveling_strategy z;
       calibration_strategy := calibration_strategy z |}.
Proof.
  unfold handle_M670.
  destruct z.
  destruct (has_arg gcode "S"), (has_arg gcode "K"), (has_arg gcode "R"),
    (has_arg gcode "Z"), (has_arg gcode "H"), (has_arg gcode "I"),
    (has_arg gcode "D"); reflexivity.
Qed.

Lemma handle_M670_calls (gcode : GCode) (inv : bool) (z : ZProbe) :
  snd (handle_M670 gcode inv z)
  = if has_arg gcode "I"
    then [PinSetInverting
            (xorb inv (F32.neb (get_arg gcode "I") F32.zero))]
    else [].
Proof.
  unfold handle_M670.
  destruct (has_arg gcode "S"), (has_arg gcode "K"), (has_arg gcode "R"),
    (has_arg gcode "Z"), (has_arg gcode "H"), (has_arg gcode "I"),
    (has_arg gcode "D"); reflexivity.
Qed.

(** The object after any M-code. *)
Lemma handle_mcode_object (gcode : GCode) (p inv : bool) (z : ZProbe) :
  snd (fst (handle_mcode gcode p inv z))
  = if get_code gcode =? 670 then fst (handle_M670 gcode inv z) else z.
Proof.
  unfold handle_mcode.
  destruct (get_code gcode =? 119) eqn:E119.
  - apply Z.eqb_eq in E119. now rewrite E119.
  - destruct (get_code gcode =? 670).
    + now destruct (handle_M670 gcode inv z).
    + now destruct (get_code gcode =? 500).
Qed.

Lemma handle_mcode_calls_670 (gcode : GCode) (p inv : bool) (z : ZProbe) :
  get_code gcode = 670 ->
  snd (handle_mcode gcode p inv z) = snd (handle_M670 gcode inv z).
Proof.
  intro H. unfold handle_mcode. rewrite H. cbn [Z.eqb Pos.eqb].
  now destruct (handle_M670 gcode inv z).
Qed.





(** X13. M500 saves what M670 sets.  After an [M670], the [M500] report is
    one line, an [M670] command whose S, K, R, Z, H and D values are, in this
    order, the slow, fast and return feedrates, [max_z], the probe height and
    the dwell: for each of the six letters, the value the [M670] gave with
    that letter when it had the word, and the value held before otherwise.
    The report itself changes nothing. *)
Theorem saved_settings_are_those_set
  (set save : GCode) (p p' inv inv' : bool) (z : ZProbe) :
  get_code set = 670 -> get_code save = 500 ->
  let z' := snd (fst (handle_mcode set p inv z)) in
  let value (c : ascii) (field : ZProbe -> float) :=
    if has_arg set c then get_arg set c else field z in
  handle_mcode save p' inv' z'
  = (true, z',
     [OsPrintf ";Probe feedrates Slow/fast(K)/Return (mm/sec) max_z (mm) height (mm) dwell (s):\nM670 S%1.2f K%1.2f R%1.2f Z%1.2f H%1.2f D%1.2f\n"
        [PFloat (value "S"%char slow_feedrate);
         PFloat (value "K"%char fast_feedrate);
         PFloat (value "R"%char return_feedrate);
         PFloat (value "Z"%char max_z);
         PFloat (value "H"%char probe_height);
         PFloat (value "D"%char dwell_before_probing)]]).
Proof.
  intros Hset Hsave z' value. subst z' value.
  rewrite handle_mcode_object, Hset. cbn [Z.eqb Pos.eqb].
  unfold handle_mcode at 1. rewrite Hsave. cbn [Z.eqb Pos.eqb].
  now rewrite handle_M670_object.
Qed.

Lemma saved_settings_are_those_set_witness :
  handle_mcode (gcode_of 500 0 []) true false
    (snd (fst (handle_mcode
                 (gcode_of 670 0 [("K"%char, F32.of_int 50);
                                  ("Z"%char, F32.of_int 20)])
                 false false (configured 0))))
  = (true,
     snd (fst (handle_mcode
                 (gcode_of 670 0 [("K"%char, F32.of_int 50);
                                  ("Z"%char, F32.of_int 20)])
                 false false (configured 0))),
     [OsPrintf ";Probe feedrates Slow/fast(K)/Return (mm/sec) max_z (mm) height (mm) dwell (s):\nM670 S%1.2f K%1.2f R%1.2f Z%1.2f H%1.2f D%1.2f\n"
        [PFloat (F32.of_int 5); PFloat (F32.of_int 50); PFloat F32.zero;
         PFloat (F32.of_int 20); PFloat (F32.of_int 5); PFloat F32.zero]]).
Proof.
  exact (saved_settings_are_those_set
           (gcode_of 670 0 [("K"%char, F32.of_int 50);
                            ("Z"%char, F32.of_int 20)])
           (gcode_of 500 0 []) false true false false (configured 0)
           eq_refl eq_refl).
Defined.

(** X14. The I word of M670 toggles the pin; it does not set it.  Handling
    an M-code leaves the pin's inversion as it was, except an [M670] with an
    I word that is not zero, which flips it.  So handling the same command a
    second time leaves the object as the first time left it and puts the
    pin's inversion back to what it was before the first: after
    [M670 I1] twice the pin is as it started while [invert_override] is
    set. *)
Theorem invert_word_toggles_the_pin
  (gcode : GCode) (p inv : bool) (z : ZProbe) :
  let first := handle_mcode gcode p inv z in
  let z1 := snd (fst first) in
  let inv1 := inversion_after (snd first) inv in
  let second := handle_mcode gcode p inv1 z1 in
  inv1 = xorb inv ((get_code gcode =? 670) && has_arg gcode "I"
                   && F32.neb (get_arg gcode "I") F32.zero) /\
  (((get_code gcode =? 670) && has_arg gcode "I") = true ->
   invert_override z1 = F32.neb (get_arg gcode "I") F32.zero) /\
  snd (fst second) = z1 /\
  inversion_after (snd second) inv1 = inv.
Proof.
  intros first z1 inv1 second.
  assert (Hinv : forall b u,
    inversion_after (snd (handle_mcode gcode p b u)) b
    = xorb b ((get_code gcode =? 670) && has_arg gcode "I"
              && F32.neb (get_arg gcode "I") F32.zero)).
  { intros b u. unfold handle_mcode.
    destruct (get_code gcode =? 119) eqn:E119.
    - apply Z.eqb_eq in E119. rewrite E119. cbn. now rewrite xorb_false_r.
    - destruct (get_code gcode =? 670) eqn:E670.
      + pose proof (handle_M670_calls gcode b u) as Hc.
        destruct (handle_M670 gcode b u) as [u' calls].
        cbn [fst snd] in *. rewrite Hc.
        destruct (has_arg gcode "I"); cbn.
        * reflexivity.
        * now rewrite xorb_false_r.
      + destruct (get_code gcode =? 500); cbn; now rewrite xorb_false_r. }
  split; [apply Hinv|].
  split; [|split].
  - intro H. apply andb_true_iff in H. destruct H as [H670 HI].
    unfold z1, first. rewrite handle_mcode_object, H670, handle_M670_object.
    cbn [invert_override]. now rewrite HI.
  - unfold second, z1, first. rewrite !handle_mcode_object.
    destruct (get_code gcode =? 670); [|reflexivity].
    rewrite !handle_M670_object. cbn.
    destruct (has_arg gcode "S"), (has_arg gcode "K"), (has_arg gcode "R"),
      (has_arg gcode "Z"), (has_arg gcode "H"), (has_arg gcode "I"),
      (has_arg gcode "D"); reflexivity.
  - unfold second. rewrite Hinv. unfold inv1, first. rewrite Hinv.
    now rewrite xorb_assoc, xorb_nilpotent, xorb_false_r.
Qed.

(** ** [configure] *)

Lemma configure_strategies_fields (cr : ConfigReader) (board : Board)
  (z : ZProbe) :
  let z' := fst (configure_strategies cr board z) in
  probing z' = probing z /\ probe_detected z' = probe_detected z /\
  debounce z' = debounce z /\ debounce_ms z' = debounce_ms z.
Proof.
  unfold configure_strategies.
  destruct (negb (String.eqb (get_string cr "leveling" EmptyString) EmptyString)),
    (String.eqb (get_string cr "leveling" EmptyString) "three point"),
    (String.eqb (get_string cr "leveling" EmptyString) "delta grid"),
    (negb (String.eqb (get_string cr "calibration" EmptyString) EmptyString)),
    (String.eqb (get_string cr "calibration" EmptyString) "delta");
    cbn; repeat split.
Qed.





(** X16. The codes [configure] registers are the codes the handlers act on.
    For a G-code that is not registered [handle_gcode] returns false and does
    nothing at all, not even reading the pin; for an M-code that is
    registered [handle_mcode] returns true, and for one that is not it
    returns false, leaves the object alone and calls nothing. *)
Theorem registered_codes_are_the_handled_codes (gcode : GCode) :
  (~ In (AddHandler GCODE_HANDLER (get_code gcode)) registrations ->
   forall env w, handle_gcode gcode env w = Done false w) /\
  (In (AddHandler MCODE_HANDLER (get_code gcode)) registrations ->
   forall p inv z, fst (fst (handle_mcode gcode p inv z)) = true) /\
  (~ In (AddHandler MCODE_HANDLER (get_code gcode)) registrations ->
   forall p inv z, handle_mcode gcode p inv z = (false, z, [])).
Proof.
  split; [|split].
  - intros Hn env w. unfold handle_gcode.
    destruct ((29 <=? get_code gcode) && (get_code gcode <=? 32)) eqn:Er.
    + exfalso. apply Hn. apply andb_true_iff in Er. destruct Er as [Hlo Hhi].
      apply Z.leb_le in Hlo, Hhi.
      assert (Hc : get_code gcode = 29 \/ get_code gcode = 30 \/
                   get_code gcode = 31 \/ get_code gcode = 32) by lia.
      destruct Hc as [-> | [-> | [-> | ->]]]; cbn; tauto.
    + destruct (get_code gcode =? 38) eqn:E38; [|reflexivity].
      exfalso. apply Hn. apply Z.eqb_eq in E38. rewrite E38. cbn. tauto.
  - intros Hin p inv z.
    assert (Hc : get_code gcode = 119 \/ get_code gcode = 670 \/
                 get_code gcode = 500).
    { cbn in Hin.
      repeat match goal with
             | H : _ \/ _ |- _ => destruct H as [H | H]
             | H : AddHandler _ _ = AddHandler _ _ |- _ =>
                 first [discriminate H | injection H as H]
             | H : AttachSampler _ = AddHandler _ _ |- _ => discriminate H
             | H : False |- _ => destruct H
             end; auto. }
    unfold handle_mcode.
    destruct Hc as [-> | [-> | ->]]; cbn [Z.eqb Pos.eqb]; [reflexivity| |reflexivity].
    now destruct (handle_M670 gcode inv z).
  - intros Hn p inv z. unfold handle_mcode.
    destruct (get_code gcode =? 119) eqn:E119;
      [exfalso; apply Hn; apply Z.eqb_eq in E119; rewrite E119; cbn; tauto|].
    destruct (get_code gcode =? 670) eqn:E670;
      [exfalso; apply Hn; apply Z.eqb_eq in E670; rewrite E670; cbn; tauto|].
    destruct (get_code gcode =? 500) eqn:E500;
      [exfalso; apply Hn; apply Z.eqb_eq in E500; rewrite E500; cbn; tauto|].
    reflexivity.
Qed.

Lemma configure_probing (cr : ConfigReader) (board : Board) (bits : Z)
  (z : ZProbe) :
  probing (snd (fst (configure cr board bits z))) = probing z.
Proof.
  unfold configure.
  destruct (negb (get_section cr)); [reflexivity|].
  destruct (negb (get_bool cr "enable" false)); [reflexivity|].
  destruct (negb (pin_connected board (get_string cr "probe_pin" "nc")));
    [reflexivity|].
  pose proof (configure_strategies_fields cr board
    (set_debounce_ms
       (to_unsigned bits (get_float cr "debounce_ms" F32.zero)) z)) as Hf.
  destruct (configure_strategies cr board _) as [z1 calls].
  cbn [fst snd] in *. destruct Hf as (Hp & _). exact Hp.
Qed.

(** X17. From construction until a probing command arms it, the sampler does
    nothing.  Whatever the memory of the object holds at construction,
    whatever [configure] reads and whether or not it succeeds, and whatever
    M-codes are handled afterwards, [probing] is false, and a run of sampler
    firings, whatever the pin reads and whichever axes move, stops no
    actuator and changes no field. *)
Theorem sampler_is_inert_until_armed
  (raw : ZProbe) (cr : ConfigReader) (board : Board) (bits : Z)
  (mcodes : list (GCode * bool * bool))
  (env : Env) (l : list TickInput) (lg : list event) (k : nat) :
  let z0 := snd (fst (configure cr board bits (construct raw))) in
  let z := fold_left (fun z '(gcode, p, inv) =>
                        snd (fst (handle_mcode gcode p inv z))) mcodes z0 in
  let w := {| zp := z; log := lg; clock := k |} in
  probing z = false /\ run_ticks env l w = w.
Proof.
  intros z0 z w.
  assert (H0 : probing z0 = false).
  { unfold z0. now rewrite configure_probing. }
  assert (Hz : probing z = false).
  { unfold z. clear w z. clearbody z0. revert z0 H0.
    induction mcodes as [|[[gcode p] inv] ms IH]; intros z0 H0; [exact H0|].
    cbn [fold_left]. apply IH.
    rewrite handle_mcode_object.
    destruct (get_code gcode =? 670); [|exact H0].
    now rewrite handle_M670_object. }
  split; [exact Hz|].
  apply run_ticks_idle. left. exact Hz.
Qed.

Lemma strategies_configured_app (l1 l2 : list setup_call) :
  strategies_configured (l1 ++ l2)
  = strategies_configured l1 ++ strategies_configured l2.
Proof. apply flat_map_app. Qed.

Lemma strategies_configured_cons (c : setup_call) (l : list setup_call) :
  strategies_configured (c :: l)
  = strategies_configured [c] ++ strategies_configured l.
Proof. unfold strategies_configured. cbn. now rewrite app_nil_r. Qed.

Lemma strategies_configured_report (board : Board) (s : option strategy)
  (name : string) :
  strategies_configured (strategy_report board s name) = present s.
Proof.
  destruct s as [st|]; [|reflexivity].
  unfold strategy_report. now destruct (strategy_configure board st).
Qed.

(** X18. [configure] installs strategies by name only.  When it succeeds,
    the leveling strategy is the three-point one for the name
    [three point], the delta-grid one for [delta grid] and otherwise the one
    the object already had; the calibration strategy is the delta one for
    the name [delta] and otherwise the one the object already had: with no
    name, or a name it does not know, [configure] neither installs nor
    clears a strategy.  A strategy's own [configure] is called once for each
    of the two keys that is not empty and whose strategy exists by then,
    leveling first, and for nothing else. *)
Theorem configure_installs_strategies_by_name
  (cr : ConfigReader) (board : Board) (bits : Z) (z : ZProbe) :
  fst (fst (configure cr board bits z)) = true ->
  let r := configure cr board bits z in
  let z' := snd (fst r) in
  let leveling := get_string cr "leveling" EmptyString in
  let calibration := get_string cr "calibration" EmptyString in
  leveling_strategy z'
  = (if String.eqb leveling "three point" then Some ThreePointStrategy
     else if String.eqb leveling "delta grid" then Some DeltaGridStrategy
     else leveling_strategy z) /\
  calibration_strategy z'
  = (if String.eqb calibration "delta" then Some DeltaCalibrationStrategy
     else calibration_strategy z) /\
  strategies_configured (snd r)
  = (if String.eqb leveling EmptyString then []
     else present (leveling_strategy z'))
    ++ (if String.eqb calibration EmptyString then []
        else present (calibration_strategy z')).
Proof.
  intros Hok r z' leveling calibration. subst r z'.
  unfold configure in *.
  destruct (negb (get_section cr)); [discriminate Hok|].
  destruct (negb (get_bool cr "enable" false)); [discriminate Hok|].
  destruct (negb (pin_connected board (get_string cr "probe_pin" "nc")));
    [discriminate Hok|].
  clear Hok. unfold configure_strategies.
  fold leveling. fold calibration.
  destruct (String.eqb leveling EmptyString) eqn:El;
    [apply String.eqb_eq in El; rewrite El|];
    (destruct (String.eqb calibration EmptyString) eqn:Ec;
     [apply String.eqb_eq in Ec; rewrite Ec|]);
    cbn [negb String.eqb];
    try destruct (String.eqb leveling "three point");
    try destruct (String.eqb leveling "delta grid");
    try destruct (String.eqb calibration "delta");
    cbn [fst snd];
    rewrite strategies_configured_cons, ?strategies_configured_app,
      ?strategies_configured_report;
    cbn; rewrite ?app_nil_r; repeat split; reflexivity.
Qed.

Lemma configure_installs_strategies_by_name_witness :
  leveling_strategy
    (snd (fst (configure named_delta_grid any_pin_but_nc 16 (configured 0))))
  = Some DeltaGridStrategy /\
  calibration_strategy
    (snd (fst (configure named_delta_grid any_pin_but_nc 16 (configured 0))))
  = None /\
  strategies_configured
    (snd (configure named_delta_grid any_pin_but_nc 16 (configured 0)))
  = [DeltaGridStrategy].
Proof.
  assert (Hok : fst (fst (configure named_delta_grid any_pin_but_nc 16
                            (configured 0))) = true)
    by (vm_compute; reflexivity).
  pose proof (configure_installs_strategies_by_name
                named_delta_grid any_pin_but_nc 16 (configured 0) Hok) as H.
  cbv zeta in H. destruct H as (Hl & Hc & Hs).
  split; [rewrite Hl; reflexivity|].
  split; [rewrite Hc; reflexivity|].
  rewrite Hs, Hl, Hc. reflexivity.
Defined.

(** ** The move helpers on a disarmed session *)

Lemma move_y_disarmed (env : Env) (w : World) (y f : float) (rel : bool) :
  probing (zp w) = false ->
  post (move_y y f rel) env w (fun _ w' =>
    zp w' = zp w /\
    log w'
    = log w ++ move_calls rel [("Y"%char, y); ("F"%char, mm_per_min f)] true).
Proof. unfold move_y. quiet_move. Qed.

Lemma state_depth_move_calls rel args wait d :
  state_depth (move_calls rel args wait) d = d.
Proof. destruct wait; reflexivity. Qed.

(** X19. A move helper run on a disarmed session is not supervised and
    restores the robot's state.  For [move_xy], [move_x], [move_y] and
    [move_z], coordinated or single-axis, relative or absolute: the helper
    returns with the object exactly as it was; the log has grown by the
    helper's own calls and by no stop of an actuator, whatever the pin read
    meanwhile; the move was dispatched on a discarding stream with the
    feedrate multiplied by 60, after absolute mode was set to the opposite
    of [relative] and machine coordinates were selected; and the saved-state
    stack is as deep as before. *)
Theorem move_helpers_on_a_disarmed_session
  (env : Env) (w : World) (x y feedrate : float) (relative : bool) :
  probing (zp w) = false ->
  let moved (m : M unit) (args : list (ascii * float)) (wait : bool) :=
    post m env w (fun _ w' =>
      zp w' = zp w /\
      log w'
      = log w
        ++ [PushState; SetAbsoluteMode (negb relative);
            SetNextCommandIsMCS true;
            Dispatch NullOs "G" 0
              (args ++ [("F"%char, F32.mul feedrate (F32.of_int 60))])]
        ++ (if wait then [WaitForIdle] else [])
        ++ [PopState] /\
      forall d, state_depth (log w') d = state_depth (log w) d) in
  moved (move_xy x y feedrate relative) [("X"%char, x); ("Y"%char, y)] true /\
  moved (move_x x feedrate relative) [("X"%char, x)] false /\
  moved (move_y y feedrate relative) [("Y"%char, y)] true /\
  moved (move_z x feedrate relative) [("Z"%char, x)] true.
Proof.
  intros Hd moved. subst moved. cbv beta.
  repeat split.
  - eapply post_consequence; [apply (move_xy_disarmed _ _ _ _ _ _ Hd)|].
    intros _ w' (Hz & Hl). rewrite Hl. repeat split; [exact Hz|].
    intro d. now rewrite state_depth_app, state_depth_move_calls.
  - eapply post_consequence; [apply (move_x_disarmed _ _ _ _ _ Hd)|].
    intros _ w' (Hz & Hl). rewrite Hl. repeat split; [exact Hz|].
    intro d. now rewrite state_depth_app, state_depth_move_calls.
  - eapply post_consequence; [apply (move_y_disarmed _ _ _ _ _ Hd)|].
    intros _ w' (Hz & Hl). rewrite Hl. repeat split; [exact Hz|].
    intro d. now rewrite state_depth_app, state_depth_move_calls.
  - eapply post_consequence; [apply (move_z_disarmed _ _ _ _ _ Hd)|].
    intros _ w' (Hz & Hl). rewrite Hl. repeat split; [exact Hz|].
    intro d. now rewrite state_depth_app, state_depth_move_calls.
Qed.

Lemma move_helpers_on_a_disarmed_session_witness :
  post (move_y (F32.of_int 3) (F32.of_int 5) true)
    (machine true (fun _ => [z_moving_tick true])) (start (configured 0))
    (fun _ w' =>
      zp w' = configured 0 /\
      log w'
      = [PushState; SetAbsoluteMode false; SetNextCommandIsMCS true;
         Dispatch NullOs "G" 0
           [("Y"%char, F32.of_int 3);
            ("F"%char, F32.mul (F32.of_int 5) (F32.of_int 60))];
         WaitForIdle; PopState] /\
      forall d, state_depth (log w') d = d).
Proof.
  exact (proj1 (proj2 (proj2
           (move_helpers_on_a_disarmed_session
              (machine true (fun _ => [z_moving_tick true]))
              (start (configured 0))
              (F32.of_int 3) (F32.of_int 3) (F32.of_int 5) true eq_refl)))).
Defined.
